(** * The two STEDI streaming jobs

    [sparkpyeventskafkastreamtoconsole.py] (topic [stedi-events]) and
    [sparkpyrediskafkastreamtoconsole.py] (topic [redis-server]) are written
    against the streaming-dataframe engine: every statement of the scripts
    builds one dataframe from the previous one.  The development below embeds
    the dataframe operations the scripts call as functions over frames
    (a schema and a list of rows), and then transcribes the two scripts
    statement by statement. *)

From Stdlib Require Import List String Ascii Bool Arith ZArith Lia.
Import ListNotations.
Set Warnings "-register-all".
Local Open Scope list_scope.
Local Open Scope string_scope.

(** ** JSON documents *)

(** A document as the JSON reader hands it to the schema-directed
    converter: members of an object in the order of the text, duplicates
    kept; a number keeps its lexeme. *)
Inductive json : Type :=
| JNull
| JBool (b : bool)
| JNumber (lexeme : string)
| JString (s : string)
| JArray (items : list json)
| JObject (members : list (string * json)).

(** ** Column types and column values *)

Inductive DataType : Type :=
| NullType
| StringType
| BinaryType
| BooleanType
| ArrayType (elementType : DataType)
| StructType (fields : list (string * DataType)).

Definition StructField (name : string) (dataType : DataType)
  : string * DataType := (name, dataType).

(** A cell of a row.  A struct holds its fields by position, in the order of
    its [StructType]. *)
Inductive datum : Type :=
| VNull
| VString (s : string)
| VBinary (bytes : string)
| VBool (b : bool)
| VArray (items : list datum)
| VStruct (fields : list datum).

Definition Schema := list (string * DataType).

Record DataFrame := mkDataFrame {
  schema : Schema;
  rows : list (list datum)
}.

(** Position and type of a field in a list of fields (exact spelling). *)
Fixpoint field_index (n : string) (fs : Schema) : option (nat * DataType) :=
  match fs with
  | [] => None
  | (k, t) :: fs' =>
      if String.eqb k n then Some (0, t)
      else match field_index n fs' with
           | Some (i, t') => Some (S i, t')
           | None => None
           end
  end.

Fixpoint update {A : Type} (i : nat) (x : A) (l : list A) : list A :=
  match l, i with
  | [], _ => []
  | _ :: l', 0 => x :: l'
  | y :: l', S i' => y :: update i' x l'
  end.

Definition nulls (fs : Schema) : list datum := map (fun _ => VNull) fs.

(** ** Base64 *)

Module Base64.

(** Six bits, most significant first. *)
Inductive sextet : Type :=
| Sextet (b5 b4 b3 b2 b1 b0 : bool).

Definition bit (b : bool) (w : nat) : nat := if b then w else 0.

Definition index (x : sextet) : nat :=
  let 'Sextet b5 b4 b3 b2 b1 b0 := x in
  bit b5 32 + bit b4 16 + bit b3 8 + bit b2 4 + bit b1 2 + bit b0 1.

Definition of_index (n : nat) : sextet :=
  Sextet (Nat.testbit n 5) (Nat.testbit n 4) (Nat.testbit n 3)
         (Nat.testbit n 2) (Nat.testbit n 1) (Nat.testbit n 0).

Definition alphabet : string :=
  "ABCDEFGHIJKLMNOPQRSTUVWXYZabcdefghijklmnopqrstuvwxyz0123456789+/".

Definition pad : ascii := "="%char.

Definition encode_char (x : sextet) : ascii :=
  match String.get (index x) alphabet with
  | Some c => c
  | None => pad
  end.

(** The decoding table: the standard alphabet, and the URL-safe [-] and
    [_] for 62 and 63. *)
Definition decode_char (c : ascii) : option sextet :=
  let n := nat_of_ascii c in
  (if (65 <=? n) && (n <=? 90) then Some (of_index (n - 65))
   else if (97 <=? n) && (n <=? 122) then Some (of_index (n - 71))
   else if (48 <=? n) && (n <=? 57) then Some (of_index (n + 4))
   else if (n =? 43) || (n =? 45) then Some (of_index 62)
   else if (n =? 47) || (n =? 95) then Some (of_index 63)
   else None)%nat.

(** Three bytes are four sextets.  [Ascii] lists the bits of a byte least
    significant first. *)
Definition quad (a b c : ascii) : sextet * sextet * sextet * sextet :=
  let 'Ascii a0 a1 a2 a3 a4 a5 a6 a7 := a in
  let 'Ascii b0 b1 b2 b3 b4 b5 b6 b7 := b in
  let 'Ascii c0 c1 c2 c3 c4 c5 c6 c7 := c in
  (Sextet a7 a6 a5 a4 a3 a2, Sextet a1 a0 b7 b6 b5 b4,
   Sextet b3 b2 b1 b0 c7 c6, Sextet c5 c4 c3 c2 c1 c0).

Definition byte1 (x y : sextet) : ascii :=
  let 'Sextet x5 x4 x3 x2 x1 x0 := x in
  let 'Sextet y5 y4 _ _ _ _ := y in
  Ascii y4 y5 x0 x1 x2 x3 x4 x5.

Definition byte2 (y z : sextet) : ascii :=
  let 'Sextet _ _ y3 y2 y1 y0 := y in
  let 'Sextet z5 z4 z3 z2 _ _ := z in
  Ascii z2 z3 z4 z5 y0 y1 y2 y3.

Definition byte3 (z w : sextet) : ascii :=
  let 'Sextet _ _ _ _ z1 z0 := z in
  let 'Sextet w5 w4 w3 w2 w1 w0 := w in
  Ascii w0 w1 w2 w3 w4 w5 z0 z1.

(** Encoding with padding. *)
Fixpoint encode (s : string) : string :=
  match s with
  | EmptyString => EmptyString
  | String a EmptyString =>
      let '(x, y, _, _) := quad a zero zero in
      String (encode_char x) (String (encode_char y)
        (String pad (String pad EmptyString)))
  | String a (String b EmptyString) =>
      let '(x, y, z, _) := quad a b zero in
      String (encode_char x) (String (encode_char y)
        (String (encode_char z) (String pad EmptyString)))
  | String a (String b (String c rest)) =>
      let '(x, y, z, w) := quad a b c in
      String (encode_char x) (String (encode_char y)
        (String (encode_char z) (String (encode_char w) (encode rest))))
  end.

(** Lenient decoding: a character outside the table is skipped, the first
    pad character ends the input, and the bits left over after the last
    whole byte are dropped. *)
Fixpoint sextets (s : string) : list sextet :=
  match s with
  | EmptyString => []
  | String c rest =>
      if Ascii.eqb c pad then []
      else match decode_char c with
           | Some x => x :: sextets rest
           | None => sextets rest
           end
  end.

Fixpoint bytes_of (l : list sextet) : string :=
  match l with
  | x :: y :: z :: w :: l' =>
      String (byte1 x y) (String (byte2 y z) (String (byte3 z w) (bytes_of l')))
  | [x; y; z] => String (byte1 x y) (String (byte2 y z) EmptyString)
  | [x; y] => String (byte1 x y) EmptyString
  | _ => EmptyString
  end.

Definition decode (s : string) : string := bytes_of (sextets s).

End Base64.

(** ** A reader and a writer of JSON text

    The reader follows the grammar of RFC 8259 over the bytes of the text:
    one value, surrounded by optional white space.  A [\u] escape is stored
    in UTF-8; two escapes that form a surrogate pair are one code point, and
    an unpaired surrogate is stored as [?]. *)

Module Json.

Inductive token : Type :=
| TLBrace | TRBrace | TLBracket | TRBracket | TColon | TComma
| TString (s : string)
| TNumber (lexeme : string)
| TTrue | TFalse | TNull.

Definition dquote : ascii := ascii_of_nat 34.
Definition backslash : ascii := ascii_of_nat 92.

Definition snoc (s : string) (c : ascii) : string :=
  s ++ String c EmptyString.

Definition is_space (c : ascii) : bool :=
  let n := nat_of_ascii c in
  ((n =? 32) || (n =? 9) || (n =? 10) || (n =? 13))%nat.

Definition is_digit (c : ascii) : bool :=
  let n := nat_of_ascii c in ((48 <=? n) && (n <=? 57))%nat.

Definition is_lower (c : ascii) : bool :=
  let n := nat_of_ascii c in ((97 <=? n) && (n <=? 122))%nat.

(** The characters a number lexeme is made of. *)
Definition is_number_char (c : ascii) : bool :=
  is_digit c || Ascii.eqb c "-" || Ascii.eqb c "+" || Ascii.eqb c "."
  || Ascii.eqb c "e" || Ascii.eqb c "E".

(** A character allowed unescaped inside a string. *)
Definition is_plain (c : ascii) : bool :=
  negb (Ascii.eqb c dquote) && negb (Ascii.eqb c backslash)
  && (32 <=? nat_of_ascii c)%nat.

Definition structural (c : ascii) : option token :=
  if Ascii.eqb c "{" then Some TLBrace
  else if Ascii.eqb c "}" then Some TRBrace
  else if Ascii.eqb c "[" then Some TLBracket
  else if Ascii.eqb c "]" then Some TRBracket
  else if Ascii.eqb c ":" then Some TColon
  else if Ascii.eqb c "," then Some TComma
  else None.

Definition hex_value (c : ascii) : option N :=
  let n := nat_of_ascii c in
  (if (48 <=? n) && (n <=? 57) then Some (N.of_nat (n - 48))
   else if (65 <=? n) && (n <=? 70) then Some (N.of_nat (n - 55))
   else if (97 <=? n) && (n <=? 102) then Some (N.of_nat (n - 87))
   else None)%nat.

Definition utf8 (cp : N) : string :=
  (if cp <? 128 then String (ascii_of_N cp) EmptyString
   else if cp <? 2048 then
     String (ascii_of_N (192 + cp / 64))
       (String (ascii_of_N (128 + cp mod 64)) EmptyString)
   else if cp <? 65536 then
     String (ascii_of_N (224 + cp / 4096))
       (String (ascii_of_N (128 + (cp / 64) mod 64))
          (String (ascii_of_N (128 + cp mod 64)) EmptyString))
   else
     String (ascii_of_N (240 + cp / 262144))
       (String (ascii_of_N (128 + (cp / 4096) mod 64))
          (String (ascii_of_N (128 + (cp / 64) mod 64))
             (String (ascii_of_N (128 + cp mod 64)) EmptyString))))%N.

Definition is_high (u : N) : bool := ((55296 <=? u) && (u <? 56320))%N.
Definition is_low (u : N) : bool := ((56320 <=? u) && (u <? 57344))%N.

(** A pending high surrogate that found no partner is written as [?]. *)
Definition flush (acc : string) (pend : option N) : string :=
  match pend with
  | Some _ => snoc acc "?"
  | None => acc
  end.

(** The string after the code unit [u] of a [\u] escape, and the high
    surrogate now pending. *)
Definition add_unit (acc : string) (pend : option N) (u : N)
  : string * option N :=
  match pend with
  | Some hi =>
      if is_low u
      then (acc ++ utf8 (65536 + (hi - 55296) * 1024 + (u - 56320))%N, None)
      else if is_high u then (snoc acc "?", Some u)
      else (snoc acc "?" ++ utf8 u, None)
  | None =>
      if is_high u then (acc, Some u)
      else if is_low u then (snoc acc "?", None)
      else (acc ++ utf8 u, None)
  end.

Definition escaped (c : ascii) : option ascii :=
  if Ascii.eqb c dquote then Some dquote
  else if Ascii.eqb c backslash then Some backslash
  else if Ascii.eqb c "/" then Some "/"%char
  else if Ascii.eqb c "b" then Some (ascii_of_nat 8)
  else if Ascii.eqb c "f" then Some (ascii_of_nat 12)
  else if Ascii.eqb c "n" then Some (ascii_of_nat 10)
  else if Ascii.eqb c "r" then Some (ascii_of_nat 13)
  else if Ascii.eqb c "t" then Some (ascii_of_nat 9)
  else None.

(** The number grammar: an optional minus; a zero, or a non-zero digit and
    more digits; optionally a dot and one or more digits; optionally an
    exponent mark, a sign and one or more digits. *)
Inductive number_state : Type :=
| NStart | NMinus | NZero | NInt | NDot | NFrac | NExp | NExpSign | NExpDigits.

Definition number_step (st : number_state) (c : ascii) : option number_state :=
  let exp := Ascii.eqb c "e" || Ascii.eqb c "E" in
  let sign := Ascii.eqb c "-" || Ascii.eqb c "+" in
  match st with
  | NStart =>
      if Ascii.eqb c "-" then Some NMinus
      else if Ascii.eqb c "0" then Some NZero
      else if is_digit c then Some NInt else None
  | NMinus =>
      if Ascii.eqb c "0" then Some NZero
      else if is_digit c then Some NInt else None
  | NZero =>
      if Ascii.eqb c "." then Some NDot
      else if exp then Some NExp else None
  | NInt =>
      if is_digit c then Some NInt
      else if Ascii.eqb c "." then Some NDot
      else if exp then Some NExp else None
  | NDot => if is_digit c then Some NFrac else None
  | NFrac =>
      if is_digit c then Some NFrac
      else if exp then Some NExp else None
  | NExp =>
      if sign then Some NExpSign
      else if is_digit c then Some NExpDigits else None
  | NExpSign => if is_digit c then Some NExpDigits else None
  | NExpDigits => if is_digit c then Some NExpDigits else None
  end.

Fixpoint number_run (st : number_state) (s : string) : bool :=
  match s with
  | EmptyString =>
      match st with
      | NZero | NInt | NFrac | NExpDigits => true
      | _ => false
      end
  | String c rest =>
      match number_step st c with
      | Some st' => number_run st' rest
      | None => false
      end
  end.

Definition number_token (lexeme : string) : option token :=
  if number_run NStart lexeme then Some (TNumber lexeme) else None.

Definition word_token (w : string) : option token :=
  if String.eqb w "true" then Some TTrue
  else if String.eqb w "false" then Some TFalse
  else if String.eqb w "null" then Some TNull
  else None.

Inductive lex_state : Type :=
| Between
| InString (acc : string) (pend : option N)
| InEscape (acc : string) (pend : option N)
| InUnicode (acc : string) (pend : option N) (u : N) (todo : nat)
| InNumber (acc : string)
| InWord (acc : string).

Definition emit (t : option token) (ts : option (list token))
  : option (list token) :=
  match t, ts with
  | Some t', Some ts' => Some (t' :: ts')
  | _, _ => None
  end.

(** After a number or a literal comes white space or a structural
    character. *)
Definition after_atom (t : option token) (c : ascii)
           (k : option (list token)) : option (list token) :=
  if is_space c then emit t k
  else match structural c with
       | Some p => emit t (emit (Some p) k)
       | None => None
       end.

Fixpoint lex (st : lex_state) (s : string) : option (list token) :=
  match s with
  | EmptyString =>
      match st with
      | Between => Some []
      | InNumber acc => emit (number_token acc) (Some [])
      | InWord acc => emit (word_token acc) (Some [])
      | _ => None
      end
  | String c rest =>
      match st with
      | Between =>
          if is_space c then lex Between rest
          else match structural c with
               | Some p => emit (Some p) (lex Between rest)
               | None =>
                   if Ascii.eqb c dquote then lex (InString EmptyString None) rest
                   else if is_digit c || Ascii.eqb c "-"
                   then lex (InNumber (String c EmptyString)) rest
                   else if is_lower c
                   then lex (InWord (String c EmptyString)) rest
                   else None
               end
      | InString acc pend =>
          if Ascii.eqb c dquote
          then emit (Some (TString (flush acc pend))) (lex Between rest)
          else if Ascii.eqb c backslash then lex (InEscape acc pend) rest
          else if is_plain c then lex (InString (snoc (flush acc pend) c) None) rest
          else None
      | InEscape acc pend =>
          if Ascii.eqb c "u" then lex (InUnicode acc pend 0%N 4) rest
          else match escaped c with
               | Some e => lex (InString (snoc (flush acc pend) e) None) rest
               | None => None
               end
      | InUnicode acc pend u todo =>
          match hex_value c, todo with
          | Some h, S (S todo1) =>
              lex (InUnicode acc pend (16 * u + h)%N (S todo1)) rest
          | Some h, _ =>
              let '(acc', pend') := add_unit acc pend (16 * u + h)%N in
              lex (InString acc' pend') rest
          | None, _ => None
          end
      | InNumber acc =>
          if is_number_char c then lex (InNumber (snoc acc c)) rest
          else after_atom (number_token acc) c (lex Between rest)
      | InWord acc =>
          if is_lower c then lex (InWord (snoc acc c)) rest
          else after_atom (word_token acc) c (lex Between rest)
      end
  end.

(** The grammar of values over the tokens.  Every call spends one unit of
    [fuel]; [parse] below supplies two units per token, more than any
    chain of calls can spend. *)
Fixpoint parse_value (fuel : nat) (ts : list token) {struct fuel}
  : option (json * list token) :=
  match fuel with
  | 0 => None
  | S fuel' =>
      match ts with
      | TNull :: r => Some (JNull, r)
      | TTrue :: r => Some (JBool true, r)
      | TFalse :: r => Some (JBool false, r)
      | TNumber n :: r => Some (JNumber n, r)
      | TString s :: r => Some (JString s, r)
      | TLBracket :: TRBracket :: r => Some (JArray [], r)
      | TLBracket :: r =>
          match parse_items fuel' r with
          | Some (items, r') => Some (JArray items, r')
          | None => None
          end
      | TLBrace :: TRBrace :: r => Some (JObject [], r)
      | TLBrace :: r =>
          match parse_members fuel' r with
          | Some (members, r') => Some (JObject members, r')
          | None => None
          end
      | _ => None
      end
  end
with parse_items (fuel : nat) (ts : list token) {struct fuel}
  : option (list json * list token) :=
  match fuel with
  | 0 => None
  | S fuel' =>
      match parse_value fuel' ts with
      | Some (v, TComma :: r) =>
          match parse_items fuel' r with
          | Some (vs, r') => Some (v :: vs, r')
          | None => None
          end
      | Some (v, TRBracket :: r) => Some ([v], r)
      | _ => None
      end
  end
with parse_members (fuel : nat) (ts : list token) {struct fuel}
  : option (list (string * json) * list token) :=
  match fuel with
  | 0 => None
  | S fuel' =>
      match ts with
      | TString k :: TColon :: r =>
          match parse_value fuel' r with
          | Some (v, TComma :: r') =>
              match parse_members fuel' r' with
              | Some (ms, r'') => Some ((k, v) :: ms, r'')
              | None => None
              end
          | Some (v, TRBrace :: r') => Some ([(k, v)], r')
          | _ => None
          end
      | _ => None
      end
  end.

Definition parse (text : string) : option json :=
  match lex Between text with
  | Some ts =>
      match parse_value (2 * List.length ts + 2) ts with
      | Some (j, []) => Some j
      | _ => None
      end
  | None => None
  end.

(** The writer: compact text, strings escaped. *)
Definition hex_digit (n : N) : ascii :=
  (if n <? 10 then ascii_of_N (48 + n) else ascii_of_N (55 + n))%N.

Definition write_char (c : ascii) : string :=
  let n := nat_of_ascii c in
  if Ascii.eqb c dquote then String backslash (String dquote EmptyString)
  else if Ascii.eqb c backslash then String backslash (String backslash EmptyString)
  else if (n =? 8)%nat then String backslash "b"
  else if (n =? 9)%nat then String backslash "t"
  else if (n =? 10)%nat then String backslash "n"
  else if (n =? 12)%nat then String backslash "f"
  else if (n =? 13)%nat then String backslash "r"
  else if (n <? 32)%nat
  then String backslash ("u00" ++ String (hex_digit (N.of_nat n / 16))
                                    (String (hex_digit (N.of_nat n mod 16)) EmptyString))
  else String c EmptyString.

Fixpoint write_chars (s : string) : string :=
  match s with
  | EmptyString => EmptyString
  | String c rest => write_char c ++ write_chars rest
  end.

Definition write_string (s : string) : string :=
  String dquote (write_chars s) ++ String dquote EmptyString.

Fixpoint write (j : json) : string :=
  match j with
  | JNull => "null"
  | JBool true => "true"
  | JBool false => "false"
  | JNumber lexeme => lexeme
  | JString s => write_string s
  | JArray items =>
      "[" ++ (fix go (first : bool) (l : list json) : string :=
                match l with
                | [] => EmptyString
                | x :: l' => (if first then "" else ",") ++ write x ++ go false l'
                end) true items ++ "]"
  | JObject members =>
      "{" ++ (fix go (first : bool) (l : list (string * json)) : string :=
                match l with
                | [] => EmptyString
                | (k, v) :: l' =>
                    (if first then "" else ",") ++ write_string k ++ ":"
                      ++ write v ++ go false l'
                end) true members ++ "}"
  end.

(** JSON texts are spelled below with ['] where the text has the double
    quote. *)
Fixpoint text (s : string) : string :=
  match s with
  | EmptyString => EmptyString
  | String c rest => String (if Ascii.eqb c "'" then dquote else c) (text rest)
  end.

End Json.

(** ** The session

    What the scripts obtain from [SparkSession.builder...getOrCreate()].
    The jobs leave every option at its default; the record holds the parts
    of the engine's JSON layer that depend on the release in use, so that
    the results below hold for each of them:
    - [read_json]: the reader of JSON text, [None] on text it rejects;
    - [write_json]: the text stored in a string field whose JSON value is
      not a string;
    - [read_binary]: the bytes of a binary field given as a JSON string
      (no schema of the two jobs has such a field);
    - [partialResults]: on a field whose JSON value does not fit its type,
      [true] leaves that one field as it was and keeps the rest of the
      record, [false] gives up the whole record;
    - [rowOfNulls]: the result for a record that is given up, a struct of
      nulls ([true]) or the null struct ([false]). *)
Record SparkSession := mkSparkSession {
  read_json : string -> option json;
  write_json : json -> string;
  read_binary : string -> option string;
  partialResults : bool;
  rowOfNulls : bool
}.

(** The session used to run the scenarios. *)
Definition session (partial row_of_nulls : bool) : SparkSession :=
  {| read_json := Json.parse;
     write_json := Json.write;
     read_binary := fun s =>
       if String.eqb (Base64.encode (Base64.decode s)) s
       then Some (Base64.decode s) else None;
     partialResults := partial;
     rowOfNulls := row_of_nulls |}.

(** ** Records arriving from a topic *)

(** The columns of the frame that [readStream.format('kafka')...load()]
    gives; [key] and [value] are binary and may be null. *)
Record KafkaRecord := mkKafkaRecord {
  key : option string;
  value : option string;
  topic : string;
  partition : Z;
  offset : Z;
  timestamp : Z;
  timestampType : Z
}.

(** ** Dataframe operations *)

(** A column expression: the name it gets in a projection, and its type and
    value in a row of a frame with a given schema.  A name that the schema
    does not have resolves to a null of [NullType] (the engine refuses to
    build such a frame; the jobs never name a column that is absent). *)
Record Column := mkColumn {
  name : string;
  dataType : Schema -> DataType;
  eval : Schema -> list datum -> datum
}.

Section Engine.

Variable spark : SparkSession.

(** *** Schema-directed conversion of a JSON value *)

(** [None] when the value does not fit the type.  A member whose name is
    not a field of the struct is skipped; a name that occurs twice is
    stored twice, the later value replacing the earlier one; a JSON null
    is a null of any type. *)
Fixpoint convert (t : DataType) (j : json) {struct j} : option datum :=
  match t, j with
  | _, JNull => Some VNull
  | NullType, _ => Some VNull
  | StringType, JString s => Some (VString s)
  | StringType, _ => Some (VString (write_json spark j))
  | BinaryType, JString s => option_map VBinary (read_binary spark s)
  | BooleanType, JBool b => Some (VBool b)
  | ArrayType et, JArray items =>
      option_map VArray
        ((fix elements (l : list json) : option (list datum) :=
            match l with
            | [] => Some []
            | x :: l' =>
                match convert et x, elements l' with
                | Some v, Some vs => Some (v :: vs)
                | _, _ => None
                end
            end) items)
  | StructType fs, JObject members =>
      option_map VStruct
        ((fix fill (ms : list (string * json)) (row : list datum)
            : option (list datum) :=
            match ms with
            | [] => Some row
            | (k, v) :: ms' =>
                match field_index k fs with
                | None => fill ms' row
                | Some (i, ti) =>
                    match convert ti v with
                    | Some x => fill ms' (update i x row)
                    | None => None
                    end
                end
            end) members (nulls fs))
  | _, _ => None
  end.

(** The members of the top-level object, one after the other. *)
Fixpoint fill_root (fs : Schema) (ms : list (string * json))
         (row : list datum) : option (list datum) :=
  match ms with
  | [] => Some row
  | (k, v) :: ms' =>
      match field_index k fs with
      | None => fill_root fs ms' row
      | Some (i, ti) =>
          match convert ti v with
          | Some x => fill_root fs ms' (update i x row)
          | None =>
              if partialResults spark then fill_root fs ms' row else None
          end
      end
  end.

Definition given_up (fs : Schema) : datum :=
  if rowOfNulls spark then VStruct (nulls fs) else VNull.

(** [from_json] on one cell: permissive, never an error.  Text that the
    reader rejects, a document that is not an object, and (without
    [partialResults]) an object with a member that does not fit its field
    are given up; a null cell gives the null struct. *)
Definition parse_struct (fs : Schema) (cell : datum) : datum :=
  match cell with
  | VString text =>
      match read_json spark text with
      | Some (JObject members) =>
          match fill_root fs members (nulls fs) with
          | Some row => VStruct row
          | None => given_up fs
          end
      | _ => given_up fs
      end
  | _ => VNull
  end.

(** *** Column expressions *)

Definition col (n : string) : Column :=
  {| name := n;
     dataType := fun s =>
       match field_index n s with
       | Some (_, t) => t
       | None => NullType
       end;
     eval := fun s r =>
       match field_index n s with
       | Some (i, _) => nth i r VNull
       | None => VNull
       end |}.

Definition alias (c : Column) (n : string) : Column :=
  {| name := n; dataType := dataType c; eval := eval c |}.

(** [from_json(c, schema)] with a struct schema. *)
Definition from_json (c : Column) (t : DataType) : Column :=
  {| name := name c;
     dataType := fun _ => t;
     eval := fun s r =>
       match t with
       | StructType fs => parse_struct fs (eval c s r)
       | _ => VNull
       end |}.

Definition unbase64 (c : Column) : Column :=
  {| name := name c;
     dataType := fun _ => BinaryType;
     eval := fun s r =>
       match eval c s r with
       | VString e => VBinary (Base64.decode e)
       | _ => VNull
       end |}.

(** [c.cast('string')]: the bytes of a binary cell are the bytes of the
    string.  The jobs cast binary cells only; the text of an array or of a
    struct is not needed and such a cell is left null here. *)
Definition cast_string (c : Column) : Column :=
  {| name := name c;
     dataType := fun _ => StringType;
     eval := fun s r =>
       match eval c s r with
       | VBinary b => VString b
       | VString x => VString x
       | VBool true => VString "true"
       | VBool false => VString "false"
       | _ => VNull
       end |}.

(** The pieces of [s] between the occurrences of [sep], empty pieces
    kept. *)
Fixpoint split_on (sep : ascii) (s : string) : list string :=
  match s with
  | EmptyString => [EmptyString]
  | String c rest =>
      if Ascii.eqb c sep then EmptyString :: split_on sep rest
      else match split_on sep rest with
           | piece :: pieces => String c piece :: pieces
           | [] => [String c EmptyString]
           end
  end.

(** [split(c, pattern)] for a pattern that is one literal character. *)
Definition split (c : Column) (pattern : ascii) : Column :=
  {| name := name c;
     dataType := fun _ => ArrayType StringType;
     eval := fun s r =>
       match eval c s r with
       | VString x => VArray (map VString (split_on pattern x))
       | _ => VNull
       end |}.

(** [c.getItem(i)] and SQL [c[i]]: null past the end. *)
Definition getItem (c : Column) (i : nat) : Column :=
  {| name := name c;
     dataType := fun s =>
       match dataType c s with
       | ArrayType t => t
       | _ => NullType
       end;
     eval := fun s r =>
       match eval c s r with
       | VArray items => nth i items VNull
       | _ => VNull
       end |}.

(** SQL [c.f]: the field of a struct, null on a null struct. *)
Definition getField (c : Column) (f : string) : Column :=
  {| name := f;
     dataType := fun s =>
       match dataType c s with
       | StructType fs =>
           match field_index f fs with
           | Some (_, t) => t
           | None => NullType
           end
       | _ => NullType
       end;
     eval := fun s r =>
       match dataType c s, eval c s r with
       | StructType fs, VStruct vs =>
           match field_index f fs with
           | Some (i, _) => nth i vs VNull
           | None => VNull
           end
       | _, _ => VNull
       end |}.

(** SQL [c is not null]. *)
Definition isNotNull (c : Column) : Column :=
  {| name := name c;
     dataType := fun _ => BooleanType;
     eval := fun s r =>
       match eval c s r with
       | VNull => VBool false
       | _ => VBool true
       end |}.

(** SQL [a and b] (three-valued). *)
Definition and_ (a b : Column) : Column :=
  {| name := name a;
     dataType := fun _ => BooleanType;
     eval := fun s r =>
       match eval a s r, eval b s r with
       | VBool false, _ => VBool false
       | _, VBool false => VBool false
       | VBool true, VBool true => VBool true
       | _, _ => VNull
       end |}.

(** *** Frames *)

(** The payload of a record as a string cell: the bytes are kept. *)
Definition payload_cell (m : KafkaRecord) : datum :=
  match value m with
  | Some bytes => VString bytes
  | None => VNull
  end.

(** [raw.selectExpr("cast(value as string) value")]. *)
Definition selectExpr_cast_value_as_string (raw : list KafkaRecord)
  : DataFrame :=
  {| schema := [("value", StringType)];
     rows := map (fun m => [payload_cell m]) raw |}.

(** [df.withColumn(n, c)]: replaces the column named [n], or adds it
    last. *)
Definition withColumn (n : string) (c : Column) (df : DataFrame)
  : DataFrame :=
  let s := schema df in
  match field_index n s with
  | Some (i, _) =>
      {| schema := update i (n, dataType c s) s;
         rows := map (fun r => update i (eval c s r) r) (rows df) |}
  | None =>
      {| schema := (s ++ [(n, dataType c s)])%list;
         rows := map (fun r => (r ++ [eval c s r])%list) (rows df) |}
  end.

(** [df.select(c1, ..., cn)] and SQL [select c1, ..., cn from df]. *)
Definition select (cs : list Column) (df : DataFrame) : DataFrame :=
  let s := schema df in
  {| schema := map (fun c => (name c, dataType c s)) cs;
     rows := map (fun r => map (fun c => eval c s r) cs) (rows df) |}.

(** [df.select(col('n.*'))]: the fields of the struct column [n] become
    the columns; a null struct gives a null in each. *)
Definition struct_cells (fs : Schema) (v : datum) : list datum :=
  match v with
  | VStruct vs => vs
  | _ => nulls fs
  end.

Definition select_star (n : string) (df : DataFrame) : DataFrame :=
  let s := schema df in
  match dataType (col n) s with
  | StructType fs =>
      {| schema := fs;
         rows := map (fun r => struct_cells fs (eval (col n) s r)) (rows df) |}
  | _ => {| schema := []; rows := map (fun _ => []) (rows df) |}
  end.

(** SQL [... from df where c]: the rows on which [c] is true. *)
Definition where_ (c : Column) (df : DataFrame) : DataFrame :=
  let s := schema df in
  {| schema := s;
     rows := filter (fun r => match eval c s r with
                              | VBool true => true
                              | _ => false
                              end) (rows df) |}.

End Engine.

(** ** The console sink *)

(** The last statement of each script,
    [df.writeStream.outputMode('append').format('console').start()], hands
    the rows of the final frame of each micro-batch to the console, which
    shows a table of the first rows with long cells cut short.  The table is
    the engine's; what follows is about the rows of the frames, and a row
    said to be printed is a row of the final frame, handed to the sink. *)

(** A record of a topic with the given payload. *)
Definition message (t : string) (payload : string) : KafkaRecord :=
  {| key := None; value := Some payload; topic := t;
     partition := 0%Z; offset := 0%Z; timestamp := 0%Z; timestampType := 0%Z |}.

(** ** Job A: [sparkpyeventskafkastreamtoconsole.py] *)

Module StediEvents.
Section Job.

Variable spark : SparkSession.
Variable stediEventsRawStreamingDF : list KafkaRecord.

Definition kafkaStediEventSchema : DataType :=
  StructType
    [ StructField "customer" StringType;
      StructField "score" StringType;
      StructField "riskDate" StringType ].

Definition stediEventsStreamingDF : DataFrame :=
  selectExpr_cast_value_as_string stediEventsRawStreamingDF.

(** The temporary view [CustomerRisk]. *)
Definition CustomerRisk : DataFrame :=
  select_star "value"
    (withColumn "value" (from_json spark (col "value") kafkaStediEventSchema)
       stediEventsStreamingDF).

(** [select customer, score from CustomerRisk] *)
Definition customerRiskStreamingDF : DataFrame :=
  select [col "customer"; col "score"] CustomerRisk.

End Job.
End StediEvents.

(** ** Job B: [sparkpyrediskafkastreamtoconsole.py] *)

Module RedisServer.
Section Job.

Variable spark : SparkSession.
Variable redisServerRawStreamingDF : list KafkaRecord.

Definition kafkaRedisSchema : DataType :=
  StructType
    [ StructField "key" StringType;
      StructField "value" StringType;
      StructField "expiredType" StringType;
      StructField "expiredValue" StringType;
      StructField "existType" StringType;
      StructField "ch" StringType;
      StructField "incr" BooleanType;
      StructField "zSetEntries"
        (ArrayType
           (StructType
              [ StructField "element" StringType;
                StructField "score" StringType ])) ].

Definition customerSchema : DataType :=
  StructType
    [ StructField "customerName" StringType;
      StructField "email" StringType;
      StructField "phone" StringType;
      StructField "birthDay" StringType ].

Definition redisServerStreamingDF : DataFrame :=
  selectExpr_cast_value_as_string redisServerRawStreamingDF.

(** The temporary view [RedisSortedSet]. *)
Definition RedisSortedSet : DataFrame :=
  select_star "value"
    (withColumn "value" (from_json spark (col "value") kafkaRedisSchema)
       redisServerStreamingDF).

(** [select zSetEntries[0].element as encodedCustomer from RedisSortedSet] *)
Definition zSetEntriesEncodedStreamingDF : DataFrame :=
  select
    [alias (getField (getItem (col "zSetEntries") 0) "element")
           "encodedCustomer"]
    RedisSortedSet.

Definition zSetEntriesDecodedStreamingDF : DataFrame :=
  withColumn "customer" (cast_string (unbase64 (col "encodedCustomer")))
    zSetEntriesEncodedStreamingDF.

(** The temporary view [CustomerRecords]. *)
Definition CustomerRecords : DataFrame :=
  select_star "customer"
    (withColumn "customer" (from_json spark (col "customer") customerSchema)
       zSetEntriesDecodedStreamingDF).

(** [select email, birthDay from CustomerRecords
     where email is not null and birthDay is not null] *)
Definition emailAndBirthDayStreamingDF : DataFrame :=
  select [col "email"; col "birthDay"]
    (where_ (and_ (isNotNull (col "email")) (isNotNull (col "birthDay")))
       CustomerRecords).

(** The script assigns [emailAndBirthDayStreamingDF] a second time, adding
    the column [birthYear]. *)
Definition emailAndBirthDayStreamingDF' : DataFrame :=
  withColumn "birthYear" (getItem (split (col "birthDay") "-") 0)
    emailAndBirthDayStreamingDF.

Definition emailAndBirthYearStreamingDF : DataFrame :=
  select [col "email"; col "birthYear"] emailAndBirthDayStreamingDF'.

End Job.
End RedisServer.



(** ** Vocabulary of the properties *)

(** The value of the member named [k] of an object; the last one when the
    name occurs more than once. *)
Fixpoint member (k : string) (ms : list (string * json)) : option json :=
  match ms with
  | [] => None
  | (k', v) :: ms' =>
      match member k ms' with
      | Some j => Some j
      | None => if String.eqb k' k then Some v else None
      end
  end.

(** The object without its members named [k]. *)
Definition without (k : string) (ms : list (string * json))
  : list (string * json) :=
  filter (fun kv => negb (String.eqb (fst kv) k)) ms.

(** The characters of [s] before the first [sep]; all of [s] when it has
    none. *)
Fixpoint before_first (sep : ascii) (s : string) : string :=
  match s with
  | EmptyString => EmptyString
  | String c rest =>
      if Ascii.eqb c sep then EmptyString else String c (before_first sep rest)
  end.

Fixpoint occurs (c : ascii) (s : string) : bool :=
  match s with
  | EmptyString => false
  | String c' rest => Ascii.eqb c' c || occurs c rest
  end.

(** The cell that a string field gets from a JSON value: a string as it
    is, a null as null, any other value as the session writes it. *)
Definition string_field_cell (spark : SparkSession) (j : json) : datum :=
  match j with
  | JNull => VNull
  | JString s => VString s
  | _ => VString (write_json spark j)
  end.

(** A cell of a string column: null or a string. *)
Definition string_cell (v : datum) : Prop :=
  v = VNull \/ exists s, v = VString s.

(** A query that handles each record on its own: its rows are those it gives
    for the records one at a time, in order, and one record gives one row or
    none. *)
Definition per_record (query : list KafkaRecord -> DataFrame) : Prop :=
  (forall raw, rows (query raw) = flat_map (fun m => rows (query [m])) raw)
  /\ (forall m, List.length (rows (query [m])) <= 1).

Definition fields_of (t : DataType) : Schema :=
  match t with
  | StructType fs => fs
  | _ => []
  end.

(** The cells of one record along the stages of the jobs. *)

(** The columns that [from_json] and the star projection make of a text
    cell. *)
Definition parsed_row (spark : SparkSession) (t : DataType) (cell : datum)
  : list datum :=
  struct_cells (fields_of t) (parse_struct spark (fields_of t) cell).

(** [zSetEntries[0].element] of a cell of the column [zSetEntries]. *)
Definition first_element (entries : datum) : datum :=
  match entries with
  | VArray (VStruct (element :: _) :: _) => element
  | _ => VNull
  end.

(** [unbase64(e).cast('string')]. *)
Definition decoded (e : datum) : datum :=
  match e with
  | VString x => VString (Base64.decode x)
  | _ => VNull
  end.

(** [email is not null and birthDay is not null] on a row of
    [CustomerRecords]. *)
Definition both_present (r : list datum) : bool :=
  match nth 1 r VNull, nth 3 r VNull with
  | VNull, _ => false
  | _, VNull => false
  | _, _ => true
  end.

(** [split(birthDay, "-").getItem(0)]. *)
Definition year_of (birthDay : datum) : datum :=
  match birthDay with
  | VString x => nth 0 (map VString (split_on "-" x)) VNull
  | _ => VNull
  end.

(** ** The messages of the scripts' comments *)

(** The customer record of the comment in the second script. *)
Definition customer_text : string :=
  Json.text "{'customerName':'Sam Test','email':'sam.test@test.com','phone':'8015551212','birthDay':'2001-01-03'}".

(** The cache-change message of that comment, around a given [element]. *)
Definition cache_change_text (element : string) : string :=
  Json.text "{'key':'Q3VzdG9tZXI=',
'existType':'NONE',
'Ch':false,
'Incr':false,
'zSetEntries':[{
'element':'" ++ element ++ Json.text "',
'Score':0.0
}],
'zsetEntries':[{
'element':'" ++ element ++ Json.text "',
'score':0.0
}]
}".

(** A risk event as the first script expects it. *)
Definition risk_text (customer score riskDate : string) : string :=
  Json.text "{'customer':'" ++ customer ++ Json.text "','score':'" ++ score
    ++ Json.text "','riskDate':'" ++ riskDate ++ Json.text "'}".

(** [f] units of fuel are enough for [run]: a result it gives uses up some
    token, and is the result with any fuel of twice the number of tokens
    used up or more. *)
Definition enough {A : Type}
           (run : nat -> list Json.token -> option (A * list Json.token))
           (f : nat) : Prop :=
  forall ts x r,
    run f ts = Some (x, r) ->
    List.length r < List.length ts
    /\ forall f', 2 * (List.length ts - List.length r) <= f' ->
                 run f' ts = Some (x, r).

Fixpoint every (p : ascii -> bool) (s : string) : bool :=
  match s with
  | EmptyString => true
  | String c rest => p c && every p rest
  end.

(** What the reader makes of [cache_change_text element]. *)
Definition cache_change_json (element : string) : json :=
  JObject
    [ ("key", JString "Q3VzdG9tZXI=");
      ("existType", JString "NONE");
      ("Ch", JBool false);
      ("Incr", JBool false);
      ("zSetEntries",
        JArray [JObject [("element", JString element); ("Score", JNumber "0.0")]]);
      ("zsetEntries",
        JArray [JObject [("element", JString element); ("score", JNumber "0.0")]]) ].

(** The record of the topic [redis-server] that carries a customer text,
    encoded, as the element of its first entry. *)
Definition cache_change (text : string) : KafkaRecord :=
  message "redis-server" (cache_change_text (Base64.encode text)).

(** More messages, for the cases of the properties. *)

Definition gail_text : string :=
  Json.text "{'customerName':'Gail Spencer','email':'Gail.Spencer@test.com','phone':'8015551212','birthDay':'1963-04-12'}".

Definition year_only_text : string :=
  Json.text "{'customerName':'Gail Spencer','email':'Gail.Spencer@test.com','phone':'8015551212','birthDay':'1963'}".

Definition no_birthday_text : string :=
  Json.text "{'customerName':'Gail Spencer','email':'Gail.Spencer@test.com','phone':'8015551212'}".

Definition no_phone_text : string :=
  Json.text "{'customerName':'Gail Spencer','email':'Gail.Spencer@test.com','birthDay':'1963-04-12'}".

Definition cut_short_text : string :=
  Json.text "{'customerName':'Gail Spencer','email':".

Definition empty_entries_text : string :=
  Json.text "{'key':'Q3VzdG9tZXI=','existType':'NONE','Ch':false,'Incr':false,'zSetEntries':[],'zsetEntries':[]}".

Definition two_entries_text (first second : string) : string :=
  Json.text "{'key':'Q3VzdG9tZXI=','zSetEntries':[{'element':'" ++ first
    ++ Json.text "','score':'0.0'},{'element':'" ++ second
    ++ Json.text "','score':'1.0'}]}".

Definition one_spelling_text (element : string) : string :=
  Json.text "{'key':'Q3VzdG9tZXI=',
'existType':'NONE',
'Ch':false,
'Incr':false,
'zSetEntries':[{
'element':'" ++ element ++ Json.text "',
'Score':0.0
}]}".

Definition customer_only_text : string :=
  Json.text "{'customer':'Spencer.Davis@test.com'}".

(** ** Vocabulary of the further properties *)

(** The cell that a string field gets from an object: the cell of its
    member, a null when the object has no such member. *)
Definition member_cell (spark : SparkSession) (k : string)
           (ms : list (string * json)) : datum :=
  match member k ms with
  | Some j => string_field_cell spark j
  | None => VNull
  end.

(** A cell fits a type: it is null, or a value of the type; the items of an
    array fit its element type, a struct has one fitting cell per field. *)
Fixpoint has_type (t : DataType) (v : datum) {struct v} : bool :=
  match v with
  | VNull => true
  | VString _ => match t with StringType => true | _ => false end
  | VBinary _ => match t with BinaryType => true | _ => false end
  | VBool _ => match t with BooleanType => true | _ => false end
  | VArray items =>
      match t with
      | ArrayType et =>
          (fix all (l : list datum) : bool :=
             match l with
             | [] => true
             | x :: l' => has_type et x && all l'
             end) items
      | _ => false
      end
  | VStruct cells =>
      match t with
      | StructType fs =>
          (fix all (fs : Schema) (l : list datum) {struct l} : bool :=
             match l, fs with
             | [], [] => true
             | x :: l', (_, ft) :: fs' => has_type ft x && all fs' l'
             | _, _ => false
             end) fs cells
      | _ => false
      end
  end.

(** A row fits a schema: one fitting cell per column. *)
Definition row_typed (fs : Schema) (row : list datum) : bool :=
  has_type (StructType fs) (VStruct row).

Definition well_typed (df : DataFrame) : Prop :=
  forall row, In row (rows df) -> row_typed (schema df) row = true.

(** The number of values nested in a JSON value. *)
Fixpoint json_size (j : json) : nat :=
  match j with
  | JArray items => S (fold_right (fun x n => json_size x + n) 0 items)
  | JObject members => S (fold_right (fun kv n => json_size (snd kv) + n) 0 members)
  | _ => 1
  end.

(** More records, for the cases of the further properties. *)

(** A record with a key and a position of its own around a payload. *)
Definition keyed_record (payload : string) : KafkaRecord :=
  {| key := Some "Q3VzdG9tZXI="; value := Some payload; topic := "redis-server";
     partition := 2%Z; offset := 41%Z; timestamp := 1600070046417%Z;
     timestampType := 0%Z |}.

(** A record without payload. *)
Definition tombstone : KafkaRecord :=
  {| key := Some "Q3VzdG9tZXI="; value := None; topic := "redis-server";
     partition := 0%Z; offset := 7%Z; timestamp := 1600070046417%Z;
     timestampType := 0%Z |}.

Definition score_number_text : string :=
  Json.text "{'score':8.0,'riskDate':'2020-09-14','extra':[1,2]}".

Definition no_entries_text : string :=
  Json.text "{'key':'Q3VzdG9tZXI=','existType':'NONE'}".

Definition null_entries_text : string :=
  Json.text "{'key':'Q3VzdG9tZXI=','zSetEntries':null}".

Definition dash_first_text : string :=
  Json.text "{'customerName':'Gail Spencer','email':'','phone':'8015551212','birthDay':'-04-12'}".

Definition other_name_text : string :=
  Json.text "{'customerName':'G. Spencer','email':'Gail.Spencer@test.com','phone':'0','birthDay':'1963-04-12'}".

(** The two loops inside [convert], by name: the items of an array, and the
    members of an object that is not the top-level one. *)
Fixpoint convert_items (spark : SparkSession) (et : DataType) (l : list json)
  : option (list datum) :=
  match l with
  | [] => Some []
  | x :: l' =>
      match convert spark et x, convert_items spark et l' with
      | Some v, Some vs => Some (v :: vs)
      | _, _ => None
      end
  end.

Fixpoint fill_struct (spark : SparkSession) (fs : Schema)
         (ms : list (string * json)) (row : list datum) : option (list datum) :=
  match ms with
  | [] => Some row
  | (k, v) :: ms' =>
      match field_index k fs with
      | None => fill_struct spark fs ms' row
      | Some (i, ti) =>
          match convert spark ti v with
          | Some x => fill_struct spark fs ms' (update i x row)
          | None => None
          end
      end
  end.

Definition is_object (j : json) : bool :=
  match j with
  | JObject _ => true
  | _ => false
  end.

Definition entry_without_element_text : string :=
  Json.text "{'key':'Q3VzdG9tZXI=','zSetEntries':[{'score':'0.0'},{'element':'dGVzdDI=','score':'1.0'}]}".

(** The encoding of the customer record with a blank after its first four
    characters. *)
Definition element_head : string := String.substring 0 4 (Base64.encode customer_text).

Definition element_tail : string :=
  String.substring 4 (String.length (Base64.encode customer_text) - 4)
                   (Base64.encode customer_text).

Definition blank_in_element_text : string :=
  Json.text "{'key':'Q3VzdG9tZXI=','zSetEntries':[{'element':'"
    ++ element_head ++ String " " element_tail ++ Json.text "','score':'0.0'}]}".

(** A member fits a schema: it names no field of it, or its value fits the
    type of the field it names. *)
Definition member_fits (spark : SparkSession) (fs : Schema)
           (kv : string * json) : bool :=
  match field_index (fst kv) fs with
  | Some (_, t) =>
      match convert spark t (snd kv) with
      | Some _ => true
      | None => false
      end
  | None => true
  end.

(** The record of an object is kept, not given up: the session keeps
    partial results, or every member fits. *)
Definition kept (spark : SparkSession) (fs : Schema)
           (ms : list (string * json)) : bool :=
  partialResults spark || forallb (member_fits spark fs) ms.

(** The object with the first entry only in its arrays named
    [zSetEntries]. *)
Definition first_only (ms : list (string * json)) : list (string * json) :=
  map (fun kv =>
         match kv with
         | (k, JArray (x :: _)) =>
             if String.eqb k "zSetEntries" then (k, JArray [x]) else kv
         | _ => kv
         end) ms.

(** The arrays named [zSetEntries] hold objects only. *)
Definition objects_only (ms : list (string * json)) : bool :=
  forallb (fun kv =>
             match kv with
             | (k, JArray items) =>
                 if String.eqb k "zSetEntries" then forallb is_object items
                 else true
             | _ => true
             end) ms.

(** Two rows of [RedisSortedSet] with the same first element. *)
Definition same_first_element (r1 r2 : list datum) : Prop :=
  List.length r1 = 8 /\ List.length r2 = 8
  /\ first_element (nth 7 r1 VNull) = first_element (nth 7 r2 VNull).

Definition one_entry_text (first : string) : string :=
  Json.text "{'key':'Q3VzdG9tZXI=','zSetEntries':[{'element':'" ++ first
    ++ Json.text "','score':'0.0'}]}".

(** The message of [one_entry_text] with a number as second entry. *)
Definition number_entry_text (first : string) : string :=
  Json.text "{'key':'Q3VzdG9tZXI=','zSetEntries':[{'element':'" ++ first
    ++ Json.text "','score':'0.0'},5]}".

(** A message with a different element under each spelling of the array. *)
Definition two_spellings_text (exact other : string) : string :=
  Json.text "{'key':'Q3VzdG9tZXI=','zsetEntries':[{'element':'" ++ other
    ++ Json.text "','score':0.0}],'zSetEntries':[{'element':'" ++ exact
    ++ Json.text "','Score':0.0}],'zsetentries':[{'element':'" ++ other
    ++ Json.text "','score':0.0}]}".

(** * Properties *)

(** ** Lists and schemas *)

Lemma update_length {A : Type} (i : nat) (x : A) (l : list A) :
  List.length (update i x l) = List.length l.
Proof.
  revert i; induction l as [|y l IH]; intros [|i]; simpl; auto.
Qed.

Lemma nth_update_same {A : Type} (i : nat) (x d : A) (l : list A) :
  i < List.length l -> nth i (update i x l) d = x.
Proof.
  revert i; induction l as [|y l IH]; intros [|i] H; simpl in *; try lia; auto.
  apply IH; lia.
Qed.

Lemma nth_update_other {A : Type} (i j : nat) (x d : A) (l : list A) :
  i <> j -> nth j (update i x l) d = nth j l d.
Proof.
  revert i j; induction l as [|y l IH]; intros [|i] [|j] H; simpl; auto;
    try congruence.
Qed.

Lemma nulls_length (fs : Schema) : List.length (nulls fs) = List.length fs.
Proof. apply length_map. Qed.

Lemma nth_nulls (fs : Schema) (i : nat) : nth i (nulls fs) VNull = VNull.
Proof.
  unfold nulls; revert i; induction fs as [|f fs IH]; intros [|i]; simpl; auto.
Qed.

Lemma field_index_bound (k : string) (fs : Schema) (i : nat) (t : DataType) :
  field_index k fs = Some (i, t) -> i < List.length fs.
Proof.
  revert i; induction fs as [|[k' t'] fs IH]; simpl; intros i H; [discriminate|].
  destruct (String.eqb k' k).
  - inversion H; lia.
  - destruct (field_index k fs) as [[i' t'']|]; [|discriminate].
    inversion H; subst. specialize (IH i' eq_refl). lia.
Qed.

(** Two names found at the same position are the same name. *)
Lemma field_index_inj (k k' : string) (fs : Schema) (i : nat) (t t' : DataType) :
  field_index k fs = Some (i, t) -> field_index k' fs = Some (i, t') -> k = k'.
Proof.
  revert i; induction fs as [|[n u] fs IH]; simpl; intros i H H'; [discriminate|].
  destruct (String.eqb n k) eqn:E, (String.eqb n k') eqn:E'.
  - apply String.eqb_eq in E, E'. congruence.
  - destruct (field_index k' fs) as [[j v]|]; inversion H; subst; discriminate.
  - destruct (field_index k fs) as [[j v]|]; inversion H'; subst; discriminate.
  - destruct (field_index k fs) as [[j v]|]; [|discriminate].
    destruct (field_index k' fs) as [[j' v']|]; [|discriminate].
    inversion H; inversion H'; subst.
    assert (j = j') by lia; subst. eapply IH; reflexivity.
Qed.

Lemma Forall_update {A : Type} (P : A -> Prop) (i : nat) (x : A) (l : list A) :
  P x -> Forall P l -> Forall P (update i x l).
Proof.
  intros Hx H; revert i; induction H as [|y l Hy H IH]; intros [|i]; simpl;
    constructor; auto.
Qed.

Lemma field_index_type (P : DataType -> Prop) (k : string) (fs : Schema)
      (i : nat) (t : DataType) :
  Forall (fun f => P (snd f)) fs -> field_index k fs = Some (i, t) -> P t.
Proof.
  intros H; revert i; induction H as [|[k' t'] fs Hf H IH]; simpl; intros i Hk;
    [discriminate|].
  destruct (String.eqb k' k).
  - inversion Hk; subst; assumption.
  - destruct (field_index k fs) as [[i' t'']|]; [|discriminate].
    inversion Hk; subst. eapply IH; reflexivity.
Qed.

(** ** The schema-directed conversion *)

Section Conversion.

Variable spark : SparkSession.

Lemma convert_string (j : json) :
  exists v, convert spark StringType j = Some v /\ string_cell v.
Proof.
  destruct j; simpl; eexists; split; try reflexivity;
    unfold string_cell; eauto.
Qed.

Lemma convert_string_value (s : string) :
  convert spark StringType (JString s) = Some (VString s).
Proof. reflexivity. Qed.

Lemma fill_root_length (fs : Schema) (ms : list (string * json))
      (row row' : list datum) :
  fill_root spark fs ms row = Some row' -> List.length row' = List.length row.
Proof.
  revert row; induction ms as [|[k v] ms IH]; simpl; intros row H.
  - inversion H; reflexivity.
  - destruct (field_index k fs) as [[i ti]|]; [|auto].
    destruct (convert spark ti v).
    + rewrite (IH _ H). apply update_length.
    + destruct (partialResults spark); [auto|discriminate].
Qed.

(** A field that no member names keeps its cell. *)
Lemma fill_root_absent (fs : Schema) (k : string) (i : nat) (t : DataType)
      (ms : list (string * json)) (row row' : list datum) :
  field_index k fs = Some (i, t) ->
  member k ms = None ->
  fill_root spark fs ms row = Some row' ->
  nth i row' VNull = nth i row VNull.
Proof.
  intros Hk; revert row; induction ms as [|[k' v] ms IH]; simpl; intros row Hm H.
  - inversion H; reflexivity.
  - destruct (member k ms); [discriminate|].
    destruct (String.eqb k' k) eqn:E; [discriminate|].
    destruct (field_index k' fs) as [[i' ti]|] eqn:Hk'; [|auto].
    destruct (convert spark ti v).
    + rewrite (IH _ eq_refl H). apply nth_update_other.
      intros ->. apply String.eqb_neq in E. apply E.
      eapply field_index_inj; eassumption.
    + destruct (partialResults spark); [auto|discriminate].
Qed.

(** A field takes the value of the last member that names it, when that
    value fits the type of the field. *)
Lemma fill_root_member (fs : Schema) (k : string) (i : nat) (t : DataType)
      (ms : list (string * json)) (j : json) (x : datum)
      (row row' : list datum) :
  field_index k fs = Some (i, t) ->
  member k ms = Some j ->
  convert spark t j = Some x ->
  i < List.length row ->
  fill_root spark fs ms row = Some row' ->
  nth i row' VNull = x.
Proof.
  intros Hk; revert row; induction ms as [|[k' v] ms IH]; simpl;
    intros row Hm Hc Hi H; [discriminate|].
  destruct (member k ms) as [j'|] eqn:Hm'.
  - inversion Hm; subst j'.
    destruct (field_index k' fs) as [[i' ti]|]; [|eauto].
    destruct (convert spark ti v) as [d|].
    + apply (IH (update i' d row)); auto. rewrite update_length; assumption.
    + destruct (partialResults spark); [eauto|discriminate].
  - destruct (String.eqb k' k) eqn:E; [|discriminate].
    apply String.eqb_eq in E; subst k'. inversion Hm; subst v.
    rewrite Hk, Hc in H.
    rewrite (fill_root_absent fs k i t ms _ _ Hk Hm' H).
    apply nth_update_same; assumption.
Qed.

(** Members that the schema does not name are skipped. *)
Lemma fill_root_without (fs : Schema) (k : string)
      (ms : list (string * json)) (row : list datum) :
  field_index k fs = None ->
  fill_root spark fs (without k ms) row = fill_root spark fs ms row.
Proof.
  intros Hk; revert row; induction ms as [|[k' v] ms IH]; simpl; intros row;
    [reflexivity|].
  destruct (String.eqb k' k) eqn:E; simpl.
  - apply String.eqb_eq in E; subst k'. rewrite Hk. apply IH.
  - destruct (field_index k' fs) as [[i ti]|]; [|apply IH].
    destruct (convert spark ti v); [apply IH|].
    destruct (partialResults spark); [apply IH|reflexivity].
Qed.

(** With string fields only, no member is refused. *)
Lemma fill_root_strings (fs : Schema) (ms : list (string * json))
      (row : list datum) :
  Forall (fun f => snd f = StringType) fs ->
  Forall string_cell row ->
  exists row', fill_root spark fs ms row = Some row' /\ Forall string_cell row'.
Proof.
  intros Hfs; revert row; induction ms as [|[k v] ms IH]; simpl; intros row Hrow.
  - eauto.
  - destruct (field_index k fs) as [[i ti]|] eqn:Hk; [|auto].
    rewrite (field_index_type (fun t => t = StringType) _ _ _ _ Hfs Hk).
    destruct (convert_string v) as (x & -> & Hx).
    apply IH. apply Forall_update; assumption.
Qed.

End Conversion.

(** ** Frames *)

Lemma frame_eq (df : DataFrame) (s : Schema) (rs : list (list datum)) :
  schema df = s -> rows df = rs -> df = {| schema := s; rows := rs |}.
Proof. destruct df; simpl; intros; subst; reflexivity. Qed.

Lemma map_flat_map {A B C : Type} (f : B -> C) (g : A -> list B) (l : list A) :
  map f (flat_map g l) = flat_map (fun a => map f (g a)) l.
Proof.
  induction l as [|a l IH]; simpl; [reflexivity|].
  rewrite map_app, IH; reflexivity.
Qed.

Lemma filter_flat_map {A B : Type} (p : B -> bool) (g : A -> list B) (l : list A) :
  filter p (flat_map g l) = flat_map (fun a => filter p (g a)) l.
Proof.
  induction l as [|a l IH]; simpl; [reflexivity|].
  rewrite filter_app, IH; reflexivity.
Qed.

Lemma filter_length_le {A : Type} (p : A -> bool) (l : list A) :
  List.length (filter p l) <= List.length l.
Proof.
  induction l as [|a l IH]; simpl; [lia|]. destruct (p a); simpl; lia.
Qed.

Lemma per_record_source (q : list KafkaRecord -> DataFrame)
      (g : KafkaRecord -> list datum) :
  (forall raw, rows (q raw) = map g raw) -> per_record q.
Proof.
  intros H; split.
  - intros raw. rewrite H. induction raw as [|m raw IH]; simpl; [reflexivity|].
    rewrite H; simpl. congruence.
  - intros m. rewrite H; simpl; lia.
Qed.

Lemma per_record_map (q q' : list KafkaRecord -> DataFrame)
      (f : list datum -> list datum) :
  (forall raw, rows (q' raw) = map f (rows (q raw))) ->
  per_record q -> per_record q'.
Proof.
  intros H [Hq Hl]; split.
  - intros raw. rewrite H, Hq, map_flat_map.
    apply flat_map_ext; intros m. rewrite H; reflexivity.
  - intros m. rewrite H, length_map. apply Hl.
Qed.

Lemma per_record_filter (q q' : list KafkaRecord -> DataFrame)
      (p : list datum -> bool) :
  (forall raw, rows (q' raw) = filter p (rows (q raw))) ->
  per_record q -> per_record q'.
Proof.
  intros H [Hq Hl]; split.
  - intros raw. rewrite H, Hq, filter_flat_map.
    apply flat_map_ext; intros m. rewrite H; reflexivity.
  - intros m. rewrite H. specialize (Hl m).
    pose proof (filter_length_le p (rows (q [m]))). lia.
Qed.

Lemma per_record_app (q : list KafkaRecord -> DataFrame)
      (raw1 raw2 : list KafkaRecord) :
  per_record q -> rows (q (raw1 ++ raw2)%list) = (rows (q raw1) ++ rows (q raw2))%list.
Proof.
  intros [Hq _]. rewrite (Hq (raw1 ++ raw2)%list), (Hq raw1), (Hq raw2).
  apply flat_map_app.
Qed.

(** ** Job A, stage by stage *)

Section StediEventsStages.

Variable spark : SparkSession.
Import StediEvents.

Lemma CustomerRisk_schema raw :
  schema (CustomerRisk spark raw) = fields_of kafkaStediEventSchema.
Proof. reflexivity. Qed.

Lemma CustomerRisk_rows raw :
  rows (CustomerRisk spark raw)
  = map (fun m => parsed_row spark kafkaStediEventSchema (payload_cell m)) raw.
Proof.
  unfold CustomerRisk. cbn. rewrite !map_map. reflexivity.
Qed.

Lemma customerRiskStreamingDF_schema raw :
  schema (customerRiskStreamingDF spark raw)
  = [("customer", StringType); ("score", StringType)].
Proof. reflexivity. Qed.

Lemma customerRiskStreamingDF_rows raw :
  rows (customerRiskStreamingDF spark raw)
  = map (fun r => [nth 0 r VNull; nth 1 r VNull]) (rows (CustomerRisk spark raw)).
Proof. reflexivity. Qed.

End StediEventsStages.

(** ** Job B, stage by stage *)

Section RedisServerStages.

Variable spark : SparkSession.
Import RedisServer.

Lemma RedisSortedSet_schema raw :
  schema (RedisSortedSet spark raw) = fields_of kafkaRedisSchema.
Proof. reflexivity. Qed.

Lemma RedisSortedSet_rows raw :
  rows (RedisSortedSet spark raw)
  = map (fun m => parsed_row spark kafkaRedisSchema (payload_cell m)) raw.
Proof.
  unfold RedisSortedSet. cbn. rewrite !map_map. reflexivity.
Qed.

Lemma zSetEntriesEncodedStreamingDF_rows raw :
  rows (zSetEntriesEncodedStreamingDF spark raw)
  = map (fun r => [first_element (nth 7 r VNull)]) (rows (RedisSortedSet spark raw)).
Proof.
  unfold zSetEntriesEncodedStreamingDF. cbn. apply map_ext; intros r.
  unfold first_element.
  destruct (nth 7 r VNull) as [| | | |[|[| | | | |[|e vs]] items]|]; reflexivity.
Qed.

Lemma zSetEntriesDecodedStreamingDF_rows raw :
  rows (zSetEntriesDecodedStreamingDF spark raw)
  = map (fun r => (r ++ [decoded (nth 0 r VNull)])%list)
        (rows (zSetEntriesEncodedStreamingDF spark raw)).
Proof.
  unfold zSetEntriesDecodedStreamingDF. cbn. apply map_ext; intros r.
  unfold decoded. destruct (nth 0 r VNull); reflexivity.
Qed.

Lemma CustomerRecords_rows raw :
  rows (CustomerRecords spark raw)
  = map (fun r => parsed_row spark customerSchema (nth 1 r VNull))
        (rows (zSetEntriesDecodedStreamingDF spark raw)).
Proof.
  unfold CustomerRecords. cbn. rewrite map_map. apply map_ext; intros r.
  destruct r as [|e [|c r]]; reflexivity.
Qed.

Lemma emailAndBirthDayStreamingDF_rows raw :
  rows (emailAndBirthDayStreamingDF spark raw)
  = map (fun r => [nth 1 r VNull; nth 3 r VNull])
        (filter both_present (rows (CustomerRecords spark raw))).
Proof.
  unfold emailAndBirthDayStreamingDF. cbn. f_equal.
  apply filter_ext; intros r. unfold both_present.
  destruct (nth 1 r VNull), (nth 3 r VNull); reflexivity.
Qed.

Lemma emailAndBirthDayStreamingDF'_rows raw :
  rows (emailAndBirthDayStreamingDF' spark raw)
  = map (fun r => (r ++ [year_of (nth 1 r VNull)])%list)
        (rows (emailAndBirthDayStreamingDF spark raw)).
Proof.
  unfold emailAndBirthDayStreamingDF'. cbn. apply map_ext; intros r.
  unfold year_of. destruct (nth 1 r VNull); reflexivity.
Qed.

Lemma emailAndBirthYearStreamingDF_rows raw :
  rows (emailAndBirthYearStreamingDF spark raw)
  = map (fun r => [nth 0 r VNull; nth 2 r VNull])
        (rows (emailAndBirthDayStreamingDF' spark raw)).
Proof. reflexivity. Qed.

(** The rows of the last frame, from the rows of [CustomerRecords]. *)
Lemma emailAndBirthYear_of_CustomerRecords raw :
  rows (emailAndBirthYearStreamingDF spark raw)
  = map (fun r => [nth 1 r VNull; year_of (nth 3 r VNull)])
        (filter both_present (rows (CustomerRecords spark raw))).
Proof.
  rewrite emailAndBirthYearStreamingDF_rows, emailAndBirthDayStreamingDF'_rows,
    emailAndBirthDayStreamingDF_rows, !map_map.
  reflexivity.
Qed.

(** The rows of [CustomerRecords], from the rows of [RedisSortedSet]. *)
Lemma CustomerRecords_of_RedisSortedSet raw :
  rows (CustomerRecords spark raw)
  = map (fun r => parsed_row spark customerSchema
                    (decoded (first_element (nth 7 r VNull))))
        (rows (RedisSortedSet spark raw)).
Proof.
  rewrite CustomerRecords_rows, zSetEntriesDecodedStreamingDF_rows,
    zSetEntriesEncodedStreamingDF_rows, !map_map.
  reflexivity.
Qed.

Lemma CustomerRecords_schema raw :
  schema (CustomerRecords spark raw) = fields_of customerSchema.
Proof. reflexivity. Qed.

Lemma emailAndBirthYearStreamingDF_schema raw :
  schema (emailAndBirthYearStreamingDF spark raw)
  = [("email", StringType); ("birthYear", StringType)].
Proof. reflexivity. Qed.

End RedisServerStages.

(** ** Base64 *)

Module Base64Facts.
Import Base64.

Lemma decode_encode_char (x : sextet) : decode_char (encode_char x) = Some x.
Proof.
  destruct x as [b5 b4 b3 b2 b1 b0].
  destruct b5, b4, b3, b2, b1, b0; reflexivity.
Qed.

Lemma encode_char_not_pad (x : sextet) : Ascii.eqb (encode_char x) pad = false.
Proof.
  destruct x as [b5 b4 b3 b2 b1 b0].
  destruct b5, b4, b3, b2, b1, b0; reflexivity.
Qed.

Lemma sextets_encode_char (x : sextet) (rest : string) :
  sextets (String (encode_char x) rest) = x :: sextets rest.
Proof.
  simpl. rewrite encode_char_not_pad, decode_encode_char. reflexivity.
Qed.

Lemma sextets_pad (rest : string) : sextets (String pad rest) = [].
Proof. reflexivity. Qed.

Lemma quad_bytes (a b c : ascii) :
  let '(x, y, z, w) := quad a b c in
  byte1 x y = a /\ byte2 y z = b /\ byte3 z w = c.
Proof.
  destruct a, b, c; simpl; repeat split; reflexivity.
Qed.

Lemma decode_encode_upto (n : nat) :
  forall s, String.length s <= n -> decode (encode s) = s.
Proof.
  induction n as [|n IH]; intros s Hn.
  - destruct s; [reflexivity|simpl in Hn; lia].
  - destruct s as [|a [|b [|c rest]]].
    + reflexivity.
    + pose proof (quad_bytes a zero zero) as Hq.
      unfold decode; simpl encode.
      destruct (quad a zero zero) as [[[x y] z] w].
      rewrite !sextets_encode_char, sextets_pad; simpl.
      destruct Hq as (-> & _); reflexivity.
    + pose proof (quad_bytes a b zero) as Hq.
      unfold decode; simpl encode.
      destruct (quad a b zero) as [[[x y] z] w].
      rewrite !sextets_encode_char, sextets_pad; simpl.
      destruct Hq as (-> & -> & _); reflexivity.
    + pose proof (quad_bytes a b c) as Hq.
      unfold decode; simpl encode.
      destruct (quad a b c) as [[[x y] z] w].
      rewrite !sextets_encode_char; simpl bytes_of.
      destruct Hq as (-> & -> & ->).
      fold (decode (encode rest)). rewrite IH; [reflexivity|].
      simpl in Hn; lia.
Qed.

(** Decoding the encoding of a byte string gives the byte string. *)
Lemma decode_encode (s : string) : decode (encode s) = s.
Proof. apply (decode_encode_upto (String.length s)); lia. Qed.

End Base64Facts.

(** ** One text cell through [from_json] *)

Section ParsedRow.

Variable spark : SparkSession.

Lemma parsed_row_null (fs : Schema) :
  parsed_row spark (StructType fs) VNull = nulls fs.
Proof. reflexivity. Qed.

Lemma given_up_cells (fs : Schema) :
  struct_cells fs (given_up spark fs) = nulls fs.
Proof. unfold given_up; destruct (rowOfNulls spark); reflexivity. Qed.

(** Text that the reader rejects gives a null in every column. *)
Lemma parsed_row_rejected (fs : Schema) (text : string) :
  read_json spark text = None ->
  parsed_row spark (StructType fs) (VString text) = nulls fs.
Proof.
  intros H. unfold parsed_row; simpl. rewrite H. apply given_up_cells.
Qed.

Lemma parsed_row_object (fs : Schema) (text : string)
      (members : list (string * json)) :
  read_json spark text = Some (JObject members) ->
  parsed_row spark (StructType fs) (VString text)
  = match fill_root spark fs members (nulls fs) with
    | Some row => row
    | None => nulls fs
    end.
Proof.
  intros H. unfold parsed_row; simpl. rewrite H.
  destruct (fill_root spark fs members (nulls fs)); [reflexivity|].
  apply given_up_cells.
Qed.

(** Whatever the cell, the row has one cell per field. *)
Lemma parsed_row_length (fs : Schema) (cell : datum) :
  List.length (parsed_row spark (StructType fs) cell) = List.length fs.
Proof.
  unfold parsed_row; simpl.
  destruct cell; simpl; try apply nulls_length.
  destruct (read_json spark s) as [[]|]; try (rewrite given_up_cells; apply nulls_length).
  destruct (fill_root spark fs members (nulls fs)) as [row|] eqn:E.
  - simpl. rewrite (fill_root_length spark _ _ _ _ E). apply nulls_length.
  - rewrite given_up_cells; apply nulls_length.
Qed.

Lemma nulls_string_cells (fs : Schema) : Forall string_cell (nulls fs).
Proof.
  unfold nulls; induction fs; simpl; constructor; auto. left; reflexivity.
Qed.

(** With string fields only, every cell is a string or null. *)
Lemma parsed_row_string_cells (fs : Schema) (cell : datum) :
  Forall (fun f => snd f = StringType) fs ->
  Forall string_cell (parsed_row spark (StructType fs) cell).
Proof.
  intros Hfs. unfold parsed_row; simpl.
  destruct cell; simpl; try apply nulls_string_cells.
  destruct (read_json spark s) as [[]|];
    try (rewrite given_up_cells; apply nulls_string_cells).
  destruct (fill_root_strings spark fs members (nulls fs) Hfs (nulls_string_cells fs))
    as (row & -> & Hrow).
  exact Hrow.
Qed.

(** The cell of a field that the object names, for a value that fits. *)
Lemma parsed_row_member (fs : Schema) (text : string)
      (members : list (string * json)) (k : string) (i : nat)
      (t : DataType) (j : json) (x : datum) :
  read_json spark text = Some (JObject members) ->
  field_index k fs = Some (i, t) ->
  member k members = Some j ->
  convert spark t j = Some x ->
  nth i (parsed_row spark (StructType fs) (VString text)) VNull = x
  \/ parsed_row spark (StructType fs) (VString text) = nulls fs.
Proof.
  intros Hr Hk Hm Hc. rewrite (parsed_row_object _ _ _ Hr).
  destruct (fill_root spark fs members (nulls fs)) as [row|] eqn:E; [left|right; reflexivity].
  eapply fill_root_member; eauto.
  rewrite nulls_length. eapply field_index_bound; eassumption.
Qed.

(** The cell of a field that the object does not name. *)
Lemma parsed_row_absent (fs : Schema) (text : string)
      (members : list (string * json)) (k : string) (i : nat) (t : DataType) :
  read_json spark text = Some (JObject members) ->
  field_index k fs = Some (i, t) ->
  member k members = None ->
  nth i (parsed_row spark (StructType fs) (VString text)) VNull = VNull.
Proof.
  intros Hr Hk Hm. rewrite (parsed_row_object _ _ _ Hr).
  destruct (fill_root spark fs members (nulls fs)) as [row|] eqn:E.
  - rewrite (fill_root_absent spark _ _ _ _ _ _ _ Hk Hm E). apply nth_nulls.
  - apply nth_nulls.
Qed.

Lemma convert_string_field (j : json) :
  convert spark StringType j = Some (string_field_cell spark j).
Proof. destruct j; reflexivity. Qed.

(** With string fields only, a named field gets the cell of its value. *)
Lemma parsed_row_string_field (fs : Schema) (text : string)
      (members : list (string * json)) (k : string) (i : nat) (j : json) :
  Forall (fun f => snd f = StringType) fs ->
  read_json spark text = Some (JObject members) ->
  field_index k fs = Some (i, StringType) ->
  member k members = Some j ->
  nth i (parsed_row spark (StructType fs) (VString text)) VNull
  = string_field_cell spark j.
Proof.
  intros Hfs Hr Hk Hm. rewrite (parsed_row_object _ _ _ Hr).
  destruct (fill_root_strings spark fs members (nulls fs) Hfs (nulls_string_cells fs))
    as (row & E & _).
  rewrite E. eapply fill_root_member; eauto using convert_string_field.
  rewrite nulls_length. eapply field_index_bound; eassumption.
Qed.

(** With string fields only, the cell of a named field is never lost. *)
Lemma parsed_row_string_member (fs : Schema) (text : string)
      (members : list (string * json)) (k : string) (i : nat) (s : string) :
  Forall (fun f => snd f = StringType) fs ->
  read_json spark text = Some (JObject members) ->
  field_index k fs = Some (i, StringType) ->
  member k members = Some (JString s) ->
  nth i (parsed_row spark (StructType fs) (VString text)) VNull = VString s.
Proof.
  intros Hfs Hr Hk Hm. rewrite (parsed_row_object _ _ _ Hr).
  destruct (fill_root_strings spark fs members (nulls fs) Hfs (nulls_string_cells fs))
    as (row & E & _).
  rewrite E. eapply fill_root_member; eauto.
  rewrite nulls_length. eapply field_index_bound; eassumption.
Qed.

End ParsedRow.

(** ** The reader on the cache-change message *)

Module JsonFacts.
Import Json.

(** *** Fuel *)

Ltac more_fuel f' :=
  intros f' ?; destruct f' as [|f']; [simpl List.length in *; lia|].

Ltac atom H :=
  inversion H; subst; clear H; split; [simpl List.length; lia|];
  let f' := fresh "f'" in more_fuel f'; reflexivity.

Ltac container IH H :=
  match type of H with
  | match ?run ?f ?ts with _ => _ end = Some _ =>
      let E := fresh "E" in
      let Hl := fresh "Hl" in
      let Hf := fresh "Hf" in
      let f' := fresh "f'" in
      destruct (run f ts) as [[? ?]|] eqn:E; [|discriminate];
      inversion H; subst; clear H;
      destruct (IH _ _ _ E) as [Hl Hf]; split; [simpl List.length in *; lia|];
      more_fuel f'; simpl; rewrite (Hf f') by (simpl List.length in *; lia); reflexivity
  end.

Lemma value_step (f : nat) :
  enough parse_items f ->
  enough parse_members f ->
  enough parse_value (S f).
Proof.
  intros IHi IHm ts x r H.
  destruct ts as [|t ts]; [discriminate|].
  destruct t; simpl in H; try discriminate; try (atom H).
  - destruct ts as [|t' ts'].
    + destruct (parse_members f []) as [[ms r']|] eqn:E; [|discriminate].
      apply IHm in E. destruct E as [E _]. simpl List.length in E. lia.
    + destruct t'; try (container IHm H). atom H.
  - destruct ts as [|t' ts'].
    + destruct (parse_items f []) as [[ms r']|] eqn:E; [|discriminate].
      apply IHi in E. destruct E as [E _]. simpl List.length in E. lia.
    + destruct t'; try (container IHi H). atom H.
Qed.

Lemma items_step (f : nat) :
  enough parse_value f ->
  enough parse_items f ->
  enough parse_items (S f).
Proof.
  intros IHv IHi ts x r H. simpl in H.
  destruct (parse_value f ts) as [[v r0]|] eqn:Ev; [|discriminate].
  destruct (IHv _ _ _ Ev) as [Hl Hf].
  destruct r0 as [|t r0]; [discriminate|].
  destruct t; try discriminate.
  - inversion H; subst; clear H. split; [simpl List.length in *; lia|].
    more_fuel f'. simpl. rewrite (Hf f') by (simpl List.length in *; lia). reflexivity.
  - destruct (parse_items f r0) as [[vs r1]|] eqn:Ei; [|discriminate].
    inversion H; subst; clear H.
    destruct (IHi _ _ _ Ei) as [Hl' Hf'].
    split; [simpl List.length in *; lia|].
    more_fuel f'. simpl. rewrite (Hf f') by (simpl List.length in *; lia).
    rewrite (Hf' f') by (simpl List.length in *; lia). reflexivity.
Qed.

Lemma members_step (f : nat) :
  enough parse_value f ->
  enough parse_members f ->
  enough parse_members (S f).
Proof.
  intros IHv IHm ts x r H. simpl in H.
  destruct ts as [|[] [|[] l]]; try discriminate.
  rename l into ts.
  destruct (parse_value f ts) as [[v r0]|] eqn:Ev; [|discriminate].
  destruct (IHv _ _ _ Ev) as [Hl Hf].
  destruct r0 as [|t r0]; [discriminate|].
  destruct t; try discriminate.
  - inversion H; subst; clear H. split; [simpl List.length in *; lia|].
    more_fuel f'. simpl. rewrite (Hf f') by (simpl List.length in *; lia). reflexivity.
  - destruct (parse_members f r0) as [[ms r1]|] eqn:Em; [|discriminate].
    inversion H; subst; clear H.
    destruct (IHm _ _ _ Em) as [Hl' Hf'].
    split; [simpl List.length in *; lia|].
    more_fuel f'. simpl. rewrite (Hf f') by (simpl List.length in *; lia).
    rewrite (Hf' f') by (simpl List.length in *; lia). reflexivity.
Qed.

Lemma fuel_enough (f : nat) :
  enough parse_value f
  /\ enough parse_items f
  /\ enough parse_members f.
Proof.
  induction f as [|f (IHv & IHi & IHm)].
  - split; [|split]; intros l y q H; discriminate.
  - auto using value_step, items_step, members_step.
Qed.

(** No document is lost for want of fuel: what some amount of fuel reads
    from all the tokens of a text, [parse] reads. *)
Lemma parse_complete (text : string) (ts : list token) (f : nat) (j : json) :
  lex Between text = Some ts ->
  parse_value f ts = Some (j, []) ->
  parse text = Some j.
Proof.
  intros Hl Hp. unfold parse. rewrite Hl.
  destruct (fuel_enough f) as [Hv _]. destruct (Hv _ _ _ Hp) as [_ Hf].
  rewrite (Hf (2 * List.length ts + 2)) by lia. reflexivity.
Qed.

(** *** The cache-change message *)

Lemma append_snoc (acc : string) (c : ascii) (e : string) :
  snoc acc c ++ e = acc ++ String c e.
Proof.
  unfold snoc. induction acc as [|a acc IH]; simpl; [reflexivity|].
  rewrite IH; reflexivity.
Qed.

Lemma append_empty (s : string) : s ++ "" = s.
Proof. induction s as [|a s IH]; simpl; [reflexivity|]. rewrite IH; reflexivity. Qed.

(** Inside a string, a run of plain characters is taken as it is. *)
Lemma lex_plain_run (e acc rest : string) :
  every is_plain e = true ->
  lex (InString acc None) (e ++ rest) = lex (InString (acc ++ e) None) rest.
Proof.
  revert acc; induction e as [|c e IH]; simpl; intros acc H.
  - rewrite append_empty; reflexivity.
  - apply andb_true_iff in H. destruct H as [Hc He].
    pose proof Hc as Hc'. unfold is_plain in Hc'.
    apply andb_true_iff in Hc'. destruct Hc' as [Hc' _].
    apply andb_true_iff in Hc'. destruct Hc' as [Hq Hb].
    apply negb_true_iff in Hq, Hb. rewrite Hq, Hb, Hc. simpl.
    rewrite (IH _ He), append_snoc. reflexivity.
Qed.

Lemma parse_cache_change_text (e : string) :
  every is_plain e = true ->
  parse (cache_change_text e) = Some (cache_change_json e).
Proof.
  intros H. unfold parse, cache_change_text.
  simpl. rewrite (lex_plain_run e _ _ H).
  simpl. rewrite (lex_plain_run e _ _ H).
  vm_compute. reflexivity.
Qed.

Lemma encode_char_plain (x : Base64.sextet) :
  is_plain (Base64.encode_char x) = true.
Proof.
  destruct x as [b5 b4 b3 b2 b1 b0].
  destruct b5, b4, b3, b2, b1, b0; reflexivity.
Qed.

Lemma encode_plain_upto (n : nat) :
  forall s, String.length s <= n -> every is_plain (Base64.encode s) = true.
Proof.
  induction n as [|n IH]; intros s Hn.
  - destruct s; [reflexivity|simpl in Hn; lia].
  - destruct s as [|a [|b [|c rest]]]; simpl Base64.encode.
    + reflexivity.
    + destruct (Base64.quad a zero zero) as [[[x y] z] w]. simpl.
      rewrite !encode_char_plain. reflexivity.
    + destruct (Base64.quad a b zero) as [[[x y] z] w]. simpl.
      rewrite !encode_char_plain. reflexivity.
    + destruct (Base64.quad a b c) as [[[x y] z] w]. simpl.
      rewrite !encode_char_plain. simpl. apply IH. simpl in Hn; lia.
Qed.

(** The characters of an encoding need no escape in a JSON string. *)
Lemma encode_plain (s : string) : every is_plain (Base64.encode s) = true.
Proof. apply (encode_plain_upto (String.length s)); lia. Qed.

End JsonFacts.

(** The reader of [session] reads the cache-change message around any
    encoded text as the document it spells. *)
Lemma session_reads_cache_change (partial row_of_nulls : bool) (text : string) :
  read_json (session partial row_of_nulls) (cache_change_text (Base64.encode text))
  = Some (cache_change_json (Base64.encode text)).
Proof.
  apply JsonFacts.parse_cache_change_text, JsonFacts.encode_plain.
Qed.

(** The element in the comment of the second script is the encoding of the
    customer record in the same comment. *)
Lemma element_of_the_comment :
  Base64.encode customer_text
  = "eyJjdXN0b21lck5hbWUiOiJTYW0gVGVzdCIsImVtYWlsIjoic2FtLnRlc3RAdGVzdC5jb20iLCJwaG9uZSI6IjgwMTU1NTEyMTIiLCJiaXJ0aERheSI6IjIwMDEtMDEtMDMifQ==".
Proof. vm_compute. reflexivity. Qed.

(** ** The loops inside the conversion, and records that are given up *)

Section Inner.

Variable spark : SparkSession.

Import RedisServer.

Lemma convert_array_items (et : DataType) (items : list json) :
  convert spark (ArrayType et) (JArray items)
  = option_map VArray (convert_items spark et items).
Proof.
  simpl. f_equal. induction items as [|x items IH]; simpl; [reflexivity|].
  rewrite IH. reflexivity.
Qed.

Lemma convert_struct_fill (fs : Schema) (ms : list (string * json)) :
  convert spark (StructType fs) (JObject ms)
  = option_map VStruct (fill_struct spark fs ms (nulls fs)).
Proof.
  simpl. f_equal. generalize (nulls fs).
  induction ms as [|[k v] ms IH]; intros row; simpl; [reflexivity|].
  destruct (field_index k fs) as [[i ti]|]; [|apply IH].
  destruct (convert spark ti v); [apply IH|reflexivity].
Qed.

(** When no member is refused, an inner object is filled as the top-level
    one is. *)
Lemma fill_struct_root (fs : Schema) (ms : list (string * json))
      (row row' : list datum) :
  fill_struct spark fs ms row = Some row' ->
  fill_root spark fs ms row = Some row'.
Proof.
  revert row; induction ms as [|[k v] ms IH]; simpl; intros row H; [exact H|].
  destruct (field_index k fs) as [[i ti]|]; [|auto].
  destruct (convert spark ti v); [auto|discriminate].
Qed.

Lemma fill_struct_strings (fs : Schema) (ms : list (string * json))
      (row : list datum) :
  Forall (fun f => snd f = StringType) fs ->
  exists row', fill_struct spark fs ms row = Some row'.
Proof.
  intros Hfs; revert row; induction ms as [|[k v] ms IH]; simpl; intros row.
  - eauto.
  - destruct (field_index k fs) as [[i ti]|] eqn:Hk; [|auto].
    rewrite (field_index_type (fun t => t = StringType) _ _ _ _ Hfs Hk).
    rewrite convert_string_field. apply IH.
Qed.

(** An object against a struct of string fields: never refused, and each
    field holds the cell of its member. *)
Lemma convert_strings_struct (fs : Schema) (ms : list (string * json)) :
  Forall (fun f => snd f = StringType) fs ->
  exists row,
    convert spark (StructType fs) (JObject ms) = Some (VStruct row)
    /\ List.length row = List.length fs
    /\ forall k i, field_index k fs = Some (i, StringType) ->
                   nth i row VNull = member_cell spark k ms.
Proof.
  intros Hfs. rewrite convert_struct_fill.
  destruct (fill_struct_strings fs ms (nulls fs) Hfs) as [row E].
  rewrite E. exists row. split; [reflexivity|]. apply fill_struct_root in E.
  split.
  - rewrite (fill_root_length spark _ _ _ _ E). apply nulls_length.
  - intros k i Hk. unfold member_cell.
    destruct (member k ms) as [j|] eqn:Hm.
    + eapply fill_root_member; eauto using convert_string_field.
      rewrite nulls_length. eapply field_index_bound; eassumption.
    + rewrite (fill_root_absent spark _ _ _ _ _ _ _ Hk Hm E). apply nth_nulls.
Qed.

Lemma convert_items_objects (fs : Schema) (items : list json) :
  Forall (fun f => snd f = StringType) fs ->
  forallb is_object items = true ->
  exists vs, convert_items spark (StructType fs) items = Some vs.
Proof.
  intros Hfs. induction items as [|x items IH]; simpl; intros H; [eauto|].
  apply andb_true_iff in H. destruct H as [Hx Hi].
  destruct x; try discriminate.
  destruct (convert_strings_struct fs members Hfs) as (row & E & _).
  destruct (IH Hi) as [vs Evs].
  exists (VStruct row :: vs).
  replace (convert spark (StructType fs) (JObject members)) with (Some (VStruct row)).
  rewrite Evs. reflexivity.
Qed.

Lemma entries_type :
  field_index "zSetEntries" (fields_of kafkaRedisSchema)
  = Some (7, ArrayType (StructType [("element", StringType); ("score", StringType)])).
Proof. reflexivity. Qed.

(** The first element, for an array of objects whose first entry is
    [entry]: the cell of its member [element], unless the whole record is
    given up. *)
Lemma first_element_of_entries
      (payload : string) (members entry : list (string * json)) (rest : list json) :
  read_json spark payload = Some (JObject members) ->
  member "zSetEntries" members = Some (JArray (JObject entry :: rest)) ->
  forallb is_object rest = true ->
  first_element (nth 7 (parsed_row spark kafkaRedisSchema (VString payload)) VNull)
  = member_cell spark "element" entry
  \/ parsed_row spark kafkaRedisSchema (VString payload)
     = nulls (fields_of kafkaRedisSchema).
Proof.
  intros Hr Hm Hrest.
  assert (Hs : Forall (fun f => snd f = StringType)
                 [("element", StringType); ("score", StringType)])
    by (repeat constructor).
  destruct (convert_strings_struct _ entry Hs) as (row & E & Hl & Hcells).
  destruct (convert_items_objects _ rest Hs Hrest) as [vs Evs].
  assert (Ec : convert spark
                 (ArrayType (StructType [("element", StringType); ("score", StringType)]))
                 (JArray (JObject entry :: rest))
               = Some (VArray (VStruct row :: vs))).
  { rewrite convert_array_items. cbn [convert_items]. rewrite E, Evs. reflexivity. }
  change kafkaRedisSchema with (StructType (fields_of kafkaRedisSchema)).
  destruct (parsed_row_member spark _ payload members "zSetEntries" 7 _ _ _
              Hr entries_type Hm Ec) as [-> | ->]; [left|right; reflexivity].
  specialize (Hcells "element" 0 eq_refl).
  destruct row as [|c row]; [discriminate|]. exact Hcells.
Qed.

Lemma fill_root_partial (fs : Schema) (ms : list (string * json))
      (row : list datum) :
  partialResults spark = true ->
  exists row', fill_root spark fs ms row = Some row'.
Proof.
  intros Hp; revert row; induction ms as [|[k v] ms IH]; simpl; intros row.
  - eauto.
  - destruct (field_index k fs) as [[i ti]|]; [|apply IH].
    destruct (convert spark ti v); [apply IH|]. rewrite Hp. apply IH.
Qed.

(** *** Records that are kept *)

Lemma fill_root_kept (fs : Schema) (ms : list (string * json))
      (row : list datum) :
  kept spark fs ms = true ->
  exists row', fill_root spark fs ms row = Some row'.
Proof.
  unfold kept. destruct (partialResults spark) eqn:Hp; simpl.
  - intros _. apply fill_root_partial; assumption.
  - revert row; induction ms as [|[k v] ms IH]; simpl; intros row H; [eauto|].
    apply andb_true_iff in H. destruct H as [Hkv Hms].
    unfold member_fits in Hkv; simpl in Hkv.
    destruct (field_index k fs) as [[i ti]|]; [|auto].
    destruct (convert spark ti v); [auto|discriminate].
Qed.



(** The first element of a record that is kept, for an array of objects:
    the cell of the member [element] of the first entry. *)
Lemma first_element_kept
      (payload : string) (members entry : list (string * json)) (rest : list json) :
  read_json spark payload = Some (JObject members) ->
  member "zSetEntries" members = Some (JArray (JObject entry :: rest)) ->
  forallb is_object rest = true ->
  kept spark (fields_of kafkaRedisSchema) members = true ->
  first_element (nth 7 (parsed_row spark kafkaRedisSchema (VString payload)) VNull)
  = member_cell spark "element" entry.
Proof.
  intros Hr Hm Hrest Hk.
  assert (Hs : Forall (fun f => snd f = StringType)
                 [("element", StringType); ("score", StringType)])
    by (repeat constructor).
  destruct (convert_strings_struct _ entry Hs) as (erow & Ee & _ & Hcells).
  destruct (convert_items_objects _ rest Hs Hrest) as [vs Evs].
  assert (Ec : convert spark
                 (ArrayType (StructType [("element", StringType); ("score", StringType)]))
                 (JArray (JObject entry :: rest))
               = Some (VArray (VStruct erow :: vs)))
    by (rewrite convert_array_items; cbn [convert_items]; rewrite Ee, Evs; reflexivity).
  destruct (fill_root_kept _ members (nulls (fields_of kafkaRedisSchema)) Hk)
    as [row E].
  change kafkaRedisSchema with (StructType (fields_of kafkaRedisSchema)).
  rewrite (parsed_row_object spark _ _ _ Hr), E.
  assert (Hlen : 7 < List.length (nulls (fields_of kafkaRedisSchema)))
    by (rewrite nulls_length; apply (field_index_bound _ _ _ _ entries_type)).
  rewrite (fill_root_member spark _ "zSetEntries" 7 _ members _ _ _ _
             entries_type Hm Ec Hlen E).
  specialize (Hcells "element" 0 eq_refl).
  destruct erow as [|c erow]; exact Hcells.
Qed.

(** *** Dropping the further entries *)

Lemma same_first_element_update (i : nat) (x : datum) (r1 r2 : list datum) :
  same_first_element r1 r2 ->
  same_first_element (update i x r1) (update i x r2).
Proof.
  intros (H1 & H2 & H). unfold same_first_element.
  rewrite !update_length. split; [assumption|split; [assumption|]].
  destruct (Nat.eq_dec i 7) as [->|Hi].
  - rewrite !nth_update_same by lia. reflexivity.
  - rewrite !nth_update_other by assumption. exact H.
Qed.

Lemma same_first_element_entries (x y : datum) (r1 r2 : list datum) :
  first_element x = first_element y ->
  same_first_element r1 r2 ->
  same_first_element (update 7 x r1) (update 7 y r2).
Proof.
  intros Hxy (H1 & H2 & _). unfold same_first_element.
  rewrite !update_length. split; [assumption|split; [assumption|]].
  rewrite !nth_update_same by lia. exact Hxy.
Qed.

(** The members one after the other, with and without the further
    entries: given up together, or kept with the same first element. *)
Lemma fill_root_first_only (ms : list (string * json)) (r1 r2 : list datum) :
  objects_only ms = true ->
  same_first_element r1 r2 ->
  match fill_root spark (fields_of kafkaRedisSchema) ms r1,
        fill_root spark (fields_of kafkaRedisSchema) (first_only ms) r2 with
  | Some r1', Some r2' => same_first_element r1' r2'
  | None, None => True
  | _, _ => False
  end.
Proof.
  revert r1 r2; induction ms as [|[k v] ms IH]; intros r1 r2 Ho Hr.
  - exact Hr.
  - simpl in Ho. apply andb_true_iff in Ho. destruct Ho as [Hkv Ho].
    assert (Hsame :
              forall v', v' = v ->
              match fill_root spark (fields_of kafkaRedisSchema) ((k, v) :: ms) r1,
                    fill_root spark (fields_of kafkaRedisSchema)
                      ((k, v') :: first_only ms) r2 with
              | Some r1', Some r2' => same_first_element r1' r2'
              | None, None => True
              | _, _ => False
              end).
    { intros v' ->. cbn [fill_root].
      destruct (field_index k (fields_of kafkaRedisSchema)) as [[i ti]|];
        [|apply IH; assumption].
      destruct (convert spark ti v) as [x|].
      - apply IH; [assumption|apply same_first_element_update; assumption].
      - destruct (partialResults spark); [apply IH; assumption|exact I]. }
    destruct v as [| | | |[|x items]|]; try (apply Hsame; reflexivity).
    change (first_only ((k, JArray (x :: items)) :: ms))
      with ((if String.eqb k "zSetEntries" then (k, JArray [x])
             else (k, JArray (x :: items))) :: first_only ms).
    destruct (String.eqb k "zSetEntries") eqn:Ek; [|apply Hsame; reflexivity].
    apply String.eqb_eq in Ek; subst k.
    simpl in Hkv. apply andb_true_iff in Hkv. destruct Hkv as [Hx Hitems].
    destruct x as [| | | | |entry]; try discriminate.
    assert (Hs : Forall (fun f => snd f = StringType)
                   [("element", StringType); ("score", StringType)])
      by (repeat constructor).
    destruct (convert_strings_struct _ entry Hs) as (erow & Ee & _ & _).
    destruct (convert_items_objects _ items Hs Hitems) as [vs Evs].
    assert (E1 : convert spark
                   (ArrayType (StructType [("element", StringType);
                                           ("score", StringType)]))
                   (JArray (JObject entry :: items))
                 = Some (VArray (VStruct erow :: vs)))
      by (rewrite convert_array_items; cbn [convert_items]; rewrite Ee, Evs;
          reflexivity).
    assert (E2 : convert spark
                   (ArrayType (StructType [("element", StringType);
                                           ("score", StringType)]))
                   (JArray [JObject entry])
                 = Some (VArray [VStruct erow]))
      by (rewrite convert_array_items; cbn [convert_items]; rewrite Ee;
          reflexivity).
    cbn [fill_root]. rewrite entries_type, E1, E2.
    apply IH; [assumption|].
    apply same_first_element_entries; [reflexivity|assumption].
Qed.

Lemma nulls_same_first_element :
  same_first_element (nulls (fields_of kafkaRedisSchema))
                     (nulls (fields_of kafkaRedisSchema)).
Proof. repeat split. Qed.

(** The first element of a record does not depend on the further entries
    of its arrays of objects. *)
Lemma first_element_first_only
      (payload1 payload2 : string) (members : list (string * json)) :
  read_json spark payload1 = Some (JObject members) ->
  read_json spark payload2 = Some (JObject (first_only members)) ->
  objects_only members = true ->
  first_element (nth 7 (parsed_row spark kafkaRedisSchema (VString payload1)) VNull)
  = first_element (nth 7 (parsed_row spark kafkaRedisSchema (VString payload2)) VNull).
Proof.
  intros H1 H2 Ho.
  change kafkaRedisSchema with (StructType (fields_of kafkaRedisSchema)).
  rewrite (parsed_row_object spark _ _ _ H1), (parsed_row_object spark _ _ _ H2).
  pose proof (fill_root_first_only members _ _ Ho nulls_same_first_element) as H.
  destruct (fill_root spark (fields_of kafkaRedisSchema) members
              (nulls (fields_of kafkaRedisSchema))) as [r1|];
    destruct (fill_root spark (fields_of kafkaRedisSchema) (first_only members)
                (nulls (fields_of kafkaRedisSchema))) as [r2|];
    try contradiction; [|reflexivity].
  destruct H as (_ & _ & H). exact H.
Qed.

End Inner.

(** * The claims *)

Section Claims.

Variable spark : SparkSession.

Import StediEvents RedisServer.

Lemma all_strings_event : Forall (fun f => snd f = StringType) (fields_of kafkaStediEventSchema).
Proof. repeat constructor. Qed.

Lemma all_strings_customer : Forall (fun f => snd f = StringType) (fields_of customerSchema).
Proof. repeat constructor. Qed.

(** C2. For a message of Job A whose payload reads as a JSON object with
    string members [customer] and [score], the frame printed by Job A has
    the two columns [customer] and [score] and one row, holding the two
    strings as they are in the message. *)
Theorem C2_job_a_projects_customer_and_score
        (m : KafkaRecord) (payload : string)
        (members : list (string * json)) (c s : string) :
  value m = Some payload ->
  read_json spark payload = Some (JObject members) ->
  member "customer" members = Some (JString c) ->
  member "score" members = Some (JString s) ->
  customerRiskStreamingDF spark [m]
  = {| schema := [("customer", StringType); ("score", StringType)];
       rows := [[VString c; VString s]] |}.
Proof.
  intros Hv Hr Hc Hs. apply frame_eq; [reflexivity|].
  rewrite customerRiskStreamingDF_rows, CustomerRisk_rows; simpl.
  unfold payload_cell; rewrite Hv.
  change kafkaStediEventSchema with (StructType (fields_of kafkaStediEventSchema)).
  rewrite (parsed_row_string_member spark _ _ _ "customer" 0 c all_strings_event Hr eq_refl Hc).
  rewrite (parsed_row_string_member spark _ _ _ "score" 1 s all_strings_event Hr eq_refl Hs).
  reflexivity.
Qed.

(** The same for members of any JSON kind: a number, say, is printed as the
    session writes it. *)
Lemma customerRiskStreamingDF_any_values
      (m : KafkaRecord) (payload : string)
      (members : list (string * json)) (jc js : json) :
  value m = Some payload ->
  read_json spark payload = Some (JObject members) ->
  member "customer" members = Some jc ->
  member "score" members = Some js ->
  rows (customerRiskStreamingDF spark [m])
  = [[string_field_cell spark jc; string_field_cell spark js]].
Proof.
  intros Hv Hr Hc Hs.
  rewrite customerRiskStreamingDF_rows, CustomerRisk_rows; simpl.
  unfold payload_cell; rewrite Hv.
  change kafkaStediEventSchema with (StructType (fields_of kafkaStediEventSchema)).
  rewrite (parsed_row_string_field spark _ _ _ "customer" 0 jc all_strings_event Hr eq_refl Hc).
  rewrite (parsed_row_string_field spark _ _ _ "score" 1 js all_strings_event Hr eq_refl Hs).
  reflexivity.
Qed.

(** *** Job B on one record *)

Lemma split_first (sep : ascii) (x : string) :
  nth 0 (map VString (split_on sep x)) VNull = VString (before_first sep x).
Proof.
  induction x as [|c rest IH]; simpl; [reflexivity|].
  destruct (Ascii.eqb c sep); [reflexivity|].
  destruct (split_on sep rest) as [|piece pieces]; simpl in *; [discriminate|].
  inversion IH; reflexivity.
Qed.

Lemma split_without (sep : ascii) (x : string) :
  occurs sep x = false -> split_on sep x = [x].
Proof.
  induction x as [|c rest IH]; simpl; [reflexivity|].
  destruct (Ascii.eqb c sep); simpl; [discriminate|].
  intros H. rewrite (IH H). reflexivity.
Qed.

Lemma CustomerRecords_cells raw r :
  In r (rows (CustomerRecords spark raw)) ->
  Forall string_cell r /\ List.length r = 4.
Proof.
  rewrite CustomerRecords_rows. intros H.
  apply in_map_iff in H. destruct H as (d & <- & _).
  change customerSchema with (StructType (fields_of customerSchema)).
  split.
  - apply parsed_row_string_cells, all_strings_customer.
  - apply parsed_row_length.
Qed.

Lemma CustomerRecords_single m r :
  rows (CustomerRecords spark [m]) = [r] ->
  rows (emailAndBirthYearStreamingDF spark [m])
  = if both_present r then [[nth 1 r VNull; year_of (nth 3 r VNull)]] else [].
Proof.
  intros H. rewrite emailAndBirthYear_of_CustomerRecords, H; simpl.
  destruct (both_present r); reflexivity.
Qed.

(** C3. For a record of Job B: when [email] and [birthDay] of its row in
    [CustomerRecords] are not null, the one row printed holds the email
    and, as [birthYear], the characters of [birthDay] before its first
    [-] (so [1963] for [1963-04-12]); when [birthDay] is null, no row is
    printed. *)
Theorem C3_birth_year_is_the_text_before_the_first_dash (m : KafkaRecord) :
  (forall n e p b,
      rows (CustomerRecords spark [m]) = [[n; e; p; b]] ->
      e <> VNull -> b <> VNull ->
      exists es bs,
        e = VString es /\ b = VString bs
        /\ rows (emailAndBirthYearStreamingDF spark [m])
           = [[VString es; VString (before_first "-" bs)]])
  /\ (forall n e p,
         rows (CustomerRecords spark [m])
         = [[n; VString e; p; VString "1963-04-12"]] ->
         rows (emailAndBirthYearStreamingDF spark [m])
         = [[VString e; VString "1963"]])
  /\ (forall n e p,
         rows (CustomerRecords spark [m]) = [[n; e; p; VNull]] ->
         rows (emailAndBirthYearStreamingDF spark [m]) = []).
Proof.
  split; [|split].
  - intros n e p b H He Hb.
    destruct (CustomerRecords_cells [m] [n; e; p; b]) as [Hc _];
      [rewrite H; left; reflexivity|].
    inversion Hc as [|? ? _ Hc1]; subst. inversion Hc1 as [|? ? Hes Hc2]; subst.
    inversion Hc2 as [|? ? _ Hc3]; subst. inversion Hc3 as [|? ? Hbs _]; subst.
    destruct Hes as [->|[es ->]]; [congruence|].
    destruct Hbs as [->|[bs ->]]; [congruence|].
    exists es, bs. repeat split.
    rewrite (CustomerRecords_single _ _ H). simpl.
    unfold year_of; rewrite split_first. reflexivity.
  - intros n e p H. rewrite (CustomerRecords_single _ _ H). reflexivity.
  - intros n e p H. rewrite (CustomerRecords_single _ _ H).
    unfold both_present; simpl. destruct e; reflexivity.
Qed.

(** C10. For a record of Job B whose row in [CustomerRecords] has an
    email and a [birthDay] without any [-]: splitting gives the one piece
    [birthDay], the record is printed, and its [birthYear] is the whole of
    [birthDay]. *)
Theorem C10_birth_day_without_dash_is_kept_whole
        (m : KafkaRecord) (n p : datum) (e b : string) :
  rows (CustomerRecords spark [m]) = [[n; VString e; p; VString b]] ->
  occurs "-" b = false ->
  split_on "-" b = [b]
  /\ rows (emailAndBirthYearStreamingDF spark [m]) = [[VString e; VString b]].
Proof.
  intros H Hb. split; [apply split_without; assumption|].
  rewrite (CustomerRecords_single _ _ H). simpl.
  rewrite (split_without _ _ Hb). reflexivity.
Qed.

(** C5. Every row that Job B prints has a string in [email] and a string
    in [birthYear], neither is null; and a record whose row in
    [CustomerRecords] has a null [email] or a null [birthDay] gives no
    row. *)
Theorem C5_job_b_prints_no_null
        (raw : list KafkaRecord) :
  (forall row,
      In row (rows (emailAndBirthYearStreamingDF spark raw)) ->
      exists e y, row = [VString e; VString y])
  /\ (forall m r,
         rows (CustomerRecords spark [m]) = [r] ->
         nth 1 r VNull = VNull \/ nth 3 r VNull = VNull ->
         rows (emailAndBirthYearStreamingDF spark [m]) = []).
Proof.
  split.
  - intros row. rewrite emailAndBirthYear_of_CustomerRecords.
    intros H. apply in_map_iff in H. destruct H as (r & <- & Hr).
    apply filter_In in Hr. destruct Hr as [Hin Hp].
    destruct (CustomerRecords_cells raw r Hin) as [Hc Hl].
    destruct r as [|n [|e [|p [|b [|]]]]]; simpl in Hl; try discriminate.
    inversion Hc as [|? ? _ Hc1]; subst. inversion Hc1 as [|? ? Hes Hc2]; subst.
    inversion Hc2 as [|? ? _ Hc3]; subst. inversion Hc3 as [|? ? Hbs _]; subst.
    unfold both_present in Hp; simpl in Hp.
    destruct Hes as [->|[es ->]]; [discriminate|].
    destruct Hbs as [->|[bs ->]]; [discriminate|].
    exists es, (before_first "-" bs). simpl.
    unfold year_of; rewrite split_first. reflexivity.
  - intros m r H Hnull. rewrite (CustomerRecords_single _ _ H).
    unfold both_present.
    destruct Hnull as [-> | ->]; [reflexivity|].
    destruct (nth 1 r VNull); reflexivity.
Qed.

Lemma RedisSortedSet_single m :
  rows (RedisSortedSet spark [m])
  = [parsed_row spark kafkaRedisSchema (payload_cell m)].
Proof. rewrite RedisSortedSet_rows; reflexivity. Qed.

Lemma stages_of_RedisSortedSet m r :
  rows (RedisSortedSet spark [m]) = [r] ->
  let e := first_element (nth 7 r VNull) in
  rows (zSetEntriesEncodedStreamingDF spark [m]) = [[e]]
  /\ rows (zSetEntriesDecodedStreamingDF spark [m]) = [[e; decoded e]]
  /\ rows (CustomerRecords spark [m]) = [parsed_row spark customerSchema (decoded e)].
Proof.
  intros H e.
  assert (He : rows (zSetEntriesEncodedStreamingDF spark [m]) = [[e]])
    by (rewrite zSetEntriesEncodedStreamingDF_rows, H; reflexivity).
  assert (Hd : rows (zSetEntriesDecodedStreamingDF spark [m]) = [[e; decoded e]])
    by (rewrite zSetEntriesDecodedStreamingDF_rows, He; reflexivity).
  repeat split; try assumption.
  rewrite CustomerRecords_rows, Hd; reflexivity.
Qed.

(** C4. For a cache-change message whose payload reads as an object with
    an empty array as [zSetEntries]: element 0 of the array is null, so
    are its decoding and every column of the inner record, and Job B
    prints no row. *)
Theorem C4_empty_zSetEntries_prints_nothing
        (m : KafkaRecord) (payload : string) (members : list (string * json)) :
  value m = Some payload ->
  read_json spark payload = Some (JObject members) ->
  member "zSetEntries" members = Some (JArray []) ->
  rows (zSetEntriesEncodedStreamingDF spark [m]) = [[VNull]]
  /\ rows (zSetEntriesDecodedStreamingDF spark [m]) = [[VNull; VNull]]
  /\ rows (CustomerRecords spark [m]) = [[VNull; VNull; VNull; VNull]]
  /\ rows (emailAndBirthYearStreamingDF spark [m]) = [].
Proof.
  intros Hv Hr Hm.
  pose proof (RedisSortedSet_single m) as Hrow.
  unfold payload_cell in Hrow; rewrite Hv in Hrow.
  assert (He : first_element
                 (nth 7 (parsed_row spark kafkaRedisSchema (VString payload)) VNull)
               = VNull).
  { change kafkaRedisSchema with (StructType (fields_of kafkaRedisSchema)).
    destruct (parsed_row_member spark (fields_of kafkaRedisSchema) payload members
                "zSetEntries" 7 _ (JArray []) (VArray []) Hr eq_refl Hm eq_refl)
      as [-> | ->]; reflexivity. }
  destruct (stages_of_RedisSortedSet _ _ Hrow) as (H1 & H2 & H3).
  rewrite He in H1, H2, H3. simpl in H2, H3.
  repeat split; try assumption.
  rewrite (CustomerRecords_single _ _ H3). reflexivity.
Qed.

(** *** Every frame handles each record on its own *)

Lemma per_record_stediEventsStreamingDF : per_record stediEventsStreamingDF.
Proof. apply per_record_source with (g := fun m => [payload_cell m]); reflexivity. Qed.

Lemma per_record_CustomerRisk : per_record (CustomerRisk spark).
Proof. eapply per_record_source, CustomerRisk_rows. Qed.

Lemma per_record_customerRiskStreamingDF :
  per_record (customerRiskStreamingDF spark).
Proof.
  eapply per_record_map;
    [apply customerRiskStreamingDF_rows|apply per_record_CustomerRisk].
Qed.

Lemma per_record_redisServerStreamingDF : per_record redisServerStreamingDF.
Proof. apply per_record_source with (g := fun m => [payload_cell m]); reflexivity. Qed.

Lemma per_record_RedisSortedSet : per_record (RedisSortedSet spark).
Proof. eapply per_record_source, RedisSortedSet_rows. Qed.

Lemma per_record_zSetEntriesEncodedStreamingDF :
  per_record (zSetEntriesEncodedStreamingDF spark).
Proof.
  eapply per_record_map;
    [apply zSetEntriesEncodedStreamingDF_rows|apply per_record_RedisSortedSet].
Qed.

Lemma per_record_zSetEntriesDecodedStreamingDF :
  per_record (zSetEntriesDecodedStreamingDF spark).
Proof.
  eapply per_record_map;
    [apply zSetEntriesDecodedStreamingDF_rows
    |apply per_record_zSetEntriesEncodedStreamingDF].
Qed.

Lemma per_record_CustomerRecords : per_record (CustomerRecords spark).
Proof.
  eapply per_record_map;
    [apply CustomerRecords_rows|apply per_record_zSetEntriesDecodedStreamingDF].
Qed.

Lemma per_record_emailAndBirthDayStreamingDF :
  per_record (emailAndBirthDayStreamingDF spark).
Proof.
  pose (kept := fun raw =>
          {| schema := schema (CustomerRecords spark raw);
             rows := filter both_present (rows (CustomerRecords spark raw)) |}).
  apply per_record_map
    with (q := kept) (f := fun r => [nth 1 r VNull; nth 3 r VNull]).
  - apply emailAndBirthDayStreamingDF_rows.
  - apply per_record_filter with (q := CustomerRecords spark) (p := both_present);
      [reflexivity|apply per_record_CustomerRecords].
Qed.

Lemma per_record_emailAndBirthDayStreamingDF' :
  per_record (emailAndBirthDayStreamingDF' spark).
Proof.
  eapply per_record_map;
    [apply emailAndBirthDayStreamingDF'_rows
    |apply per_record_emailAndBirthDayStreamingDF].
Qed.

Lemma per_record_emailAndBirthYearStreamingDF :
  per_record (emailAndBirthYearStreamingDF spark).
Proof.
  eapply per_record_map;
    [apply emailAndBirthYearStreamingDF_rows
    |apply per_record_emailAndBirthDayStreamingDF'].
Qed.

Lemma per_record_twice (q : list KafkaRecord -> DataFrame) (m : KafkaRecord) :
  per_record q -> rows (q [m; m]) = (rows (q [m]) ++ rows (q [m]))%list.
Proof. intros H. apply (per_record_app q [m] [m] H). Qed.

(** C8. Every frame of the two jobs handles each record on its own: its
    rows are the rows it gives for the records taken one at a time, in
    order, one record giving one row or none (always one in Job A).  So a
    message presented twice gives its row twice: Job A gives two equal rows
    for any message, and Job B gives the row of a message twice when the
    message gives a row, and none when it gives none. *)
Theorem C8_each_record_is_handled_on_its_own :
  (per_record stediEventsStreamingDF
   /\ per_record (CustomerRisk spark)
   /\ per_record (customerRiskStreamingDF spark))
  /\ (per_record redisServerStreamingDF
      /\ per_record (RedisSortedSet spark)
      /\ per_record (zSetEntriesEncodedStreamingDF spark)
      /\ per_record (zSetEntriesDecodedStreamingDF spark)
      /\ per_record (CustomerRecords spark)
      /\ per_record (emailAndBirthDayStreamingDF spark)
      /\ per_record (emailAndBirthDayStreamingDF' spark)
      /\ per_record (emailAndBirthYearStreamingDF spark))
  /\ (forall m,
         exists row,
           rows (customerRiskStreamingDF spark [m]) = [row]
           /\ rows (customerRiskStreamingDF spark [m; m]) = [row; row])
  /\ (forall m row,
         rows (emailAndBirthYearStreamingDF spark [m]) = [row] ->
         rows (emailAndBirthYearStreamingDF spark [m; m]) = [row; row])
  /\ (forall m,
         rows (emailAndBirthYearStreamingDF spark [m]) = [] ->
         rows (emailAndBirthYearStreamingDF spark [m; m]) = []).
Proof.
  split; [|split; [|split; [|split]]].
  - auto using per_record_stediEventsStreamingDF, per_record_CustomerRisk,
      per_record_customerRiskStreamingDF.
  - repeat split;
      first [ apply per_record_redisServerStreamingDF
            | apply per_record_RedisSortedSet
            | apply per_record_zSetEntriesEncodedStreamingDF
            | apply per_record_zSetEntriesDecodedStreamingDF
            | apply per_record_CustomerRecords
            | apply per_record_emailAndBirthDayStreamingDF
            | apply per_record_emailAndBirthDayStreamingDF'
            | apply per_record_emailAndBirthYearStreamingDF ].
  - intros m.
    rewrite (per_record_twice _ m per_record_customerRiskStreamingDF).
    rewrite customerRiskStreamingDF_rows, CustomerRisk_rows; simpl.
    eexists; split; reflexivity.
  - intros m row H.
    rewrite (per_record_twice _ m per_record_emailAndBirthYearStreamingDF), H.
    reflexivity.
  - intros m H.
    rewrite (per_record_twice _ m per_record_emailAndBirthYearStreamingDF), H.
    reflexivity.
Qed.

Lemma final_of_first_element m1 m2 r1 r2 :
  rows (RedisSortedSet spark [m1]) = [r1] ->
  rows (RedisSortedSet spark [m2]) = [r2] ->
  first_element (nth 7 r1 VNull) = first_element (nth 7 r2 VNull) ->
  emailAndBirthYearStreamingDF spark [m1] = emailAndBirthYearStreamingDF spark [m2].
Proof.
  intros H1 H2 He.
  destruct (stages_of_RedisSortedSet _ _ H1) as (_ & _ & C1).
  destruct (stages_of_RedisSortedSet _ _ H2) as (_ & _ & C2).
  rewrite He in C1.
  rewrite (frame_eq (emailAndBirthYearStreamingDF spark [m2]) _ _ eq_refl eq_refl).
  apply frame_eq; [reflexivity|].
  rewrite (CustomerRecords_single _ _ C1), (CustomerRecords_single _ _ C2).
  reflexivity.
Qed.

(** C9, as the code has it.  For a cache-change message whose arrays
    [zSetEntries] hold objects only, Job B uses the first entry and no
    other: the message and the message cut down to the first entry give the
    same frame, and the encoded customer of a record that is kept is the
    member [element] of the first entry of the member spelled
    [zSetEntries].  The parsed record has the one column [zSetEntries]; the
    spelling [zsetEntries] is no field of the schema, and a message gives
    the same record with and without its members spelled [zsetEntries]. *)
Theorem C9_first_entry_only_and_one_spelling :
  (forall m1 m2 payload1 payload2 members,
      value m1 = Some payload1 ->
      value m2 = Some payload2 ->
      read_json spark payload1 = Some (JObject members) ->
      read_json spark payload2 = Some (JObject (first_only members)) ->
      objects_only members = true ->
      emailAndBirthYearStreamingDF spark [m1]
      = emailAndBirthYearStreamingDF spark [m2])
  /\ (forall m payload members entry rest,
         value m = Some payload ->
         read_json spark payload = Some (JObject members) ->
         member "zSetEntries" members = Some (JArray (JObject entry :: rest)) ->
         forallb is_object rest = true ->
         kept spark (fields_of kafkaRedisSchema) members = true ->
         rows (zSetEntriesEncodedStreamingDF spark [m])
         = [[member_cell spark "element" entry]])
  /\ (forall raw,
         map fst (schema (RedisSortedSet spark raw))
         = ["key"; "value"; "expiredType"; "expiredValue"; "existType";
            "ch"; "incr"; "zSetEntries"])
  /\ field_index "zsetEntries" (fields_of kafkaRedisSchema) = None
  /\ (forall m1 m2 payload1 payload2 members,
         value m1 = Some payload1 ->
         value m2 = Some payload2 ->
         read_json spark payload1 = Some (JObject members) ->
         read_json spark payload2
         = Some (JObject (without "zsetEntries" members)) ->
         RedisSortedSet spark [m1] = RedisSortedSet spark [m2]).
Proof.
  split; [|split; [|split; [|split]]].
  - intros m1 m2 p1 p2 members V1 V2 R1 R2 Ho.
    pose proof (RedisSortedSet_single m1) as H1.
    pose proof (RedisSortedSet_single m2) as H2.
    unfold payload_cell in H1, H2. rewrite V1 in H1. rewrite V2 in H2.
    apply (final_of_first_element m1 m2 _ _ H1 H2).
    apply (first_element_first_only spark p1 p2 members R1 R2 Ho).
  - intros m payload members entry rest Hv Hr Hm Hrest Hk.
    pose proof (RedisSortedSet_single m) as Hrow.
    unfold payload_cell in Hrow; rewrite Hv in Hrow.
    destruct (stages_of_RedisSortedSet _ _ Hrow) as (H1 & _ & _).
    rewrite H1.
    rewrite (first_element_kept spark payload members entry rest Hr Hm Hrest Hk).
    reflexivity.
  - reflexivity.
  - reflexivity.
  - intros m1 m2 p1 p2 members V1 V2 R1 R2.
    rewrite (frame_eq (RedisSortedSet spark [m2]) _ _ eq_refl eq_refl).
    apply frame_eq; [reflexivity|].
    rewrite !RedisSortedSet_single. unfold payload_cell; rewrite V1, V2.
    change kafkaRedisSchema with (StructType (fields_of kafkaRedisSchema)).
    rewrite (parsed_row_object spark _ _ _ R1), (parsed_row_object spark _ _ _ R2).
    rewrite fill_root_without by reflexivity. reflexivity.
Qed.

(** *** Text that is rejected, fields that are absent *)

Lemma final_of_CustomerRecords_nulls m :
  rows (CustomerRecords spark [m]) = [[VNull; VNull; VNull; VNull]] ->
  rows (emailAndBirthYearStreamingDF spark [m]) = [].
Proof. intros H. rewrite (CustomerRecords_single _ _ H). reflexivity. Qed.

Lemma CustomerRecords_of_decoded m e c :
  rows (zSetEntriesDecodedStreamingDF spark [m]) = [[e; c]] ->
  rows (CustomerRecords spark [m]) = [parsed_row spark customerSchema c].
Proof. intros H. rewrite CustomerRecords_rows, H. reflexivity. Qed.

(** C6, as the code has it.  Text that the reader rejects, at a decoding
    stage of either job, gives a record of nulls and no error: Job A
    prints a row of nulls, Job B prints nothing.  Text that reads as an
    object lacking a field gives a null in the column of that field: Job A
    prints its row with a null for a lacking [customer] or [score], and
    Job B prints nothing when [email] or [birthDay] is the one lacking. *)
Theorem C6_rejected_text_gives_nulls_and_an_absent_field_one_null :
  (forall m payload,
      value m = Some payload ->
      read_json spark payload = None ->
      rows (CustomerRisk spark [m]) = [[VNull; VNull; VNull]]
      /\ rows (customerRiskStreamingDF spark [m]) = [[VNull; VNull]])
  /\ (forall m payload,
         value m = Some payload ->
         read_json spark payload = None ->
         rows (RedisSortedSet spark [m])
         = [[VNull; VNull; VNull; VNull; VNull; VNull; VNull; VNull]]
         /\ rows (emailAndBirthYearStreamingDF spark [m]) = [])
  /\ (forall m e text,
         rows (zSetEntriesDecodedStreamingDF spark [m]) = [[e; VString text]] ->
         read_json spark text = None ->
         rows (CustomerRecords spark [m]) = [[VNull; VNull; VNull; VNull]]
         /\ rows (emailAndBirthYearStreamingDF spark [m]) = [])
  /\ (forall m payload members k i t r,
         value m = Some payload ->
         read_json spark payload = Some (JObject members) ->
         member k members = None ->
         (field_index k (fields_of kafkaStediEventSchema) = Some (i, t) ->
          rows (CustomerRisk spark [m]) = [r] -> nth i r VNull = VNull)
         /\ (field_index k (fields_of kafkaRedisSchema) = Some (i, t) ->
             rows (RedisSortedSet spark [m]) = [r] -> nth i r VNull = VNull))
  /\ (forall m payload members,
         value m = Some payload ->
         read_json spark payload = Some (JObject members) ->
         (member "customer" members = None ->
          exists score, rows (customerRiskStreamingDF spark [m]) = [[VNull; score]])
         /\ (member "score" members = None ->
             exists customer,
               rows (customerRiskStreamingDF spark [m]) = [[customer; VNull]]))
  /\ (forall m e text members k i t r,
         rows (zSetEntriesDecodedStreamingDF spark [m]) = [[e; VString text]] ->
         read_json spark text = Some (JObject members) ->
         member k members = None ->
         field_index k (fields_of customerSchema) = Some (i, t) ->
         rows (CustomerRecords spark [m]) = [r] ->
         nth i r VNull = VNull
         /\ (k = "email" \/ k = "birthDay" ->
             rows (emailAndBirthYearStreamingDF spark [m]) = [])).
Proof.
  split; [|split; [|split; [|split; [|split]]]].
  - intros m payload Hv Hr.
    assert (H : rows (CustomerRisk spark [m]) = [[VNull; VNull; VNull]]).
    { rewrite CustomerRisk_rows; simpl. unfold payload_cell; rewrite Hv.
      change kafkaStediEventSchema with (StructType (fields_of kafkaStediEventSchema)).
      rewrite (parsed_row_rejected spark _ _ Hr). reflexivity. }
    split; [assumption|].
    rewrite customerRiskStreamingDF_rows, H. reflexivity.
  - intros m payload Hv Hr.
    assert (H : rows (RedisSortedSet spark [m])
                = [[VNull; VNull; VNull; VNull; VNull; VNull; VNull; VNull]]).
    { rewrite RedisSortedSet_single. unfold payload_cell; rewrite Hv.
      change kafkaRedisSchema with (StructType (fields_of kafkaRedisSchema)).
      rewrite (parsed_row_rejected spark _ _ Hr). reflexivity. }
    split; [assumption|].
    destruct (stages_of_RedisSortedSet _ _ H) as (_ & _ & C).
    apply final_of_CustomerRecords_nulls. exact C.
  - intros m e text Hd Hr.
    assert (H : rows (CustomerRecords spark [m]) = [[VNull; VNull; VNull; VNull]]).
    { rewrite (CustomerRecords_of_decoded _ _ _ Hd).
      change customerSchema with (StructType (fields_of customerSchema)).
      rewrite (parsed_row_rejected spark _ _ Hr). reflexivity. }
    split; [assumption|]. apply final_of_CustomerRecords_nulls; assumption.
  - intros m payload members k i t r Hv Hr Hm. split; intros Hk Hrow.
    + rewrite CustomerRisk_rows in Hrow; simpl in Hrow.
      unfold payload_cell in Hrow; rewrite Hv in Hrow.
      inversion Hrow; subst r.
      change kafkaStediEventSchema with (StructType (fields_of kafkaStediEventSchema)).
      eapply parsed_row_absent; eassumption.
    + rewrite RedisSortedSet_single in Hrow.
      unfold payload_cell in Hrow; rewrite Hv in Hrow.
      inversion Hrow; subst r.
      change kafkaRedisSchema with (StructType (fields_of kafkaRedisSchema)).
      eapply parsed_row_absent; eassumption.
  - intros m payload members Hv Hr.
    assert (Hrows : rows (customerRiskStreamingDF spark [m])
                    = [[nth 0 (parsed_row spark kafkaStediEventSchema (VString payload))
                            VNull;
                        nth 1 (parsed_row spark kafkaStediEventSchema (VString payload))
                            VNull]]).
    { rewrite customerRiskStreamingDF_rows, CustomerRisk_rows; simpl.
      unfold payload_cell; rewrite Hv. reflexivity. }
    rewrite Hrows.
    change kafkaStediEventSchema with (StructType (fields_of kafkaStediEventSchema)).
    split; intros Hm; eexists.
    + rewrite (parsed_row_absent spark (fields_of kafkaStediEventSchema) _ _
                 "customer" 0 StringType Hr eq_refl Hm).
      reflexivity.
    + rewrite (parsed_row_absent spark (fields_of kafkaStediEventSchema) _ _
                 "score" 1 StringType Hr eq_refl Hm).
      reflexivity.
  - intros m e text members k i t r Hd Hr Hm Hk Hrow.
    pose proof Hrow as Hrow'.
    rewrite (CustomerRecords_of_decoded _ _ _ Hd) in Hrow'.
    injection Hrow' as Hr'.
    assert (Hnull : nth i r VNull = VNull).
    { rewrite <- Hr'.
      change customerSchema with (StructType (fields_of customerSchema)).
      eapply parsed_row_absent; eassumption. }
    split; [exact Hnull|].
    intros Hkey. rewrite (CustomerRecords_single _ _ Hrow).
    unfold both_present.
    destruct Hkey as [-> | ->]; simpl in Hk; inversion Hk; subst i;
      rewrite Hnull; [reflexivity|].
    destruct (nth 1 r VNull); reflexivity.
Qed.

(** *** The way back from the encoded element *)

Lemma decode_stages_recover m r text score others :
  rows (RedisSortedSet spark [m]) = [r] ->
  nth 7 r VNull
  = VArray (VStruct (VString (Base64.encode text) :: score) :: others) ->
  rows (zSetEntriesEncodedStreamingDF spark [m]) = [[VString (Base64.encode text)]]
  /\ rows (zSetEntriesDecodedStreamingDF spark [m])
     = [[VString (Base64.encode text); VString text]]
  /\ rows (CustomerRecords spark [m])
     = [parsed_row spark customerSchema (VString text)].
Proof.
  intros H E. destruct (stages_of_RedisSortedSet _ _ H) as (H1 & H2 & H3).
  rewrite E in H1, H2, H3. simpl in H1, H2, H3.
  rewrite Base64Facts.decode_encode in H2, H3. auto.
Qed.

Lemma cache_change_row (text : string) :
  read_json spark (cache_change_text (Base64.encode text))
  = Some (cache_change_json (Base64.encode text)) ->
  rows (RedisSortedSet spark [cache_change text])
  = [[VString "Q3VzdG9tZXI="; VNull; VNull; VNull; VString "NONE"; VNull; VNull;
      VArray [VStruct [VString (Base64.encode text); VNull]]]].
Proof.
  intros H. rewrite RedisSortedSet_single.
  change (payload_cell (cache_change text))
    with (VString (cache_change_text (Base64.encode text))).
  change kafkaRedisSchema with (StructType (fields_of kafkaRedisSchema)).
  rewrite (parsed_row_object spark _ _ _ H). reflexivity.
Qed.

(** C7. Take any text, encode it, and wrap it as [zSetEntries[0].element]
    of the cache-change message, read as the document it spells.  The
    decoding stages of Job B give back the encoded element, then the text
    itself, then the record that parsing the text itself gives; when the
    text is a customer record with the four string fields, these four
    strings are the row of [CustomerRecords]. *)
Theorem C7_encoded_customer_comes_back (text : string) :
  read_json spark (cache_change_text (Base64.encode text))
  = Some (cache_change_json (Base64.encode text)) ->
  rows (zSetEntriesEncodedStreamingDF spark [cache_change text])
  = [[VString (Base64.encode text)]]
  /\ rows (zSetEntriesDecodedStreamingDF spark [cache_change text])
     = [[VString (Base64.encode text); VString text]]
  /\ rows (CustomerRecords spark [cache_change text])
     = [parsed_row spark customerSchema (VString text)]
  /\ (forall members n e p b,
         read_json spark text = Some (JObject members) ->
         member "customerName" members = Some (JString n) ->
         member "email" members = Some (JString e) ->
         member "phone" members = Some (JString p) ->
         member "birthDay" members = Some (JString b) ->
         rows (CustomerRecords spark [cache_change text])
         = [[VString n; VString e; VString p; VString b]]).
Proof.
  intros H.
  destruct (decode_stages_recover (cache_change text) _ text [VNull] []
              (cache_change_row text H) eq_refl) as (H1 & H2 & H3).
  repeat split; try assumption.
  intros members n e p b Hr Hn He Hp Hb. rewrite H3. f_equal.
  change customerSchema with (StructType (fields_of customerSchema)).
  pose proof (parsed_row_length spark (fields_of customerSchema) (VString text)) as Hl.
  pose proof (parsed_row_string_member spark _ _ _ "customerName" 0 n
                all_strings_customer Hr eq_refl Hn) as E0.
  pose proof (parsed_row_string_member spark _ _ _ "email" 1 e
                all_strings_customer Hr eq_refl He) as E1.
  pose proof (parsed_row_string_member spark _ _ _ "phone" 2 p
                all_strings_customer Hr eq_refl Hp) as E2.
  pose proof (parsed_row_string_member spark _ _ _ "birthDay" 3 b
                all_strings_customer Hr eq_refl Hb) as E3.
  destruct (parsed_row spark (StructType (fields_of customerSchema)) (VString text))
    as [|c0 [|c1 [|c2 [|c3 [|]]]]]; simpl in Hl; try discriminate.
  simpl in E0, E1, E2, E3. subst. reflexivity.
Qed.

End Claims.

Lemma C2_witness :
  StediEvents.customerRiskStreamingDF (session true true)
    [message "stedi-events" (risk_text "Spencer.Davis@test.com" "8.0" "2020-09-14")]
  = {| schema := [("customer", StringType); ("score", StringType)];
       rows := [[VString "Spencer.Davis@test.com"; VString "8.0"]] |}.
Proof.
  apply (C2_job_a_projects_customer_and_score (session true true)
           (message "stedi-events" (risk_text "Spencer.Davis@test.com" "8.0" "2020-09-14"))
           (risk_text "Spencer.Davis@test.com" "8.0" "2020-09-14")
           [("customer", JString "Spencer.Davis@test.com"); ("score", JString "8.0");
            ("riskDate", JString "2020-09-14")]);
    reflexivity.
Defined.

(** C1. The scenario of the second script: the customer record of Sam Test,
    encoded and placed as [zSetEntries[0].element] of the cache-change
    message of the script's comment, gives the frame with the columns
    [email] and [birthYear] and the one row [sam.test@test.com], [2001]. *)
Theorem C1_sam_test_end_to_end (partial row_of_nulls : bool) :
  RedisServer.emailAndBirthYearStreamingDF (session partial row_of_nulls)
    [cache_change customer_text]
  = {| schema := [("email", StringType); ("birthYear", StringType)];
       rows := [[VString "sam.test@test.com"; VString "2001"]] |}.
Proof. destruct partial, row_of_nulls; vm_compute; reflexivity. Qed.

(** ** The claims at concrete messages *)

Lemma C3_witness :
  (exists es bs,
      VString "Gail.Spencer@test.com" = VString es
      /\ VString "1963-04-12" = VString bs
      /\ rows (RedisServer.emailAndBirthYearStreamingDF (session true true)
                 [cache_change gail_text])
         = [[VString es; VString (before_first "-" bs)]])
  /\ rows (RedisServer.emailAndBirthYearStreamingDF (session true true)
             [cache_change gail_text])
     = [[VString "Gail.Spencer@test.com"; VString "1963"]]
  /\ rows (RedisServer.emailAndBirthYearStreamingDF (session true true)
             [cache_change no_birthday_text])
     = [].
Proof.
  split; [|split].
  - apply (proj1 (C3_birth_year_is_the_text_before_the_first_dash
                    (session true true) (cache_change gail_text))
             (VString "Gail Spencer") (VString "Gail.Spencer@test.com")
             (VString "8015551212") (VString "1963-04-12"));
      [vm_compute; reflexivity|discriminate|discriminate].
  - apply (proj1 (proj2 (C3_birth_year_is_the_text_before_the_first_dash
                           (session true true) (cache_change gail_text)))
             (VString "Gail Spencer") "Gail.Spencer@test.com" (VString "8015551212")).
    vm_compute; reflexivity.
  - apply (proj2 (proj2 (C3_birth_year_is_the_text_before_the_first_dash
                           (session true true) (cache_change no_birthday_text)))
             (VString "Gail Spencer") (VString "Gail.Spencer@test.com")
             (VString "8015551212")).
    vm_compute; reflexivity.
Defined.

Lemma C4_witness :
  rows (RedisServer.zSetEntriesEncodedStreamingDF (session true true)
          [message "redis-server" empty_entries_text]) = [[VNull]]
  /\ rows (RedisServer.zSetEntriesDecodedStreamingDF (session true true)
             [message "redis-server" empty_entries_text]) = [[VNull; VNull]]
  /\ rows (RedisServer.CustomerRecords (session true true)
             [message "redis-server" empty_entries_text])
     = [[VNull; VNull; VNull; VNull]]
  /\ rows (RedisServer.emailAndBirthYearStreamingDF (session true true)
             [message "redis-server" empty_entries_text]) = [].
Proof.
  apply (C4_empty_zSetEntries_prints_nothing (session true true)
           (message "redis-server" empty_entries_text) empty_entries_text
           [("key", JString "Q3VzdG9tZXI="); ("existType", JString "NONE");
            ("Ch", JBool false); ("Incr", JBool false);
            ("zSetEntries", JArray []); ("zsetEntries", JArray [])]);
    vm_compute; reflexivity.
Defined.

Lemma C5_witness :
  (exists e y,
      [VString "sam.test@test.com"; VString "2001"] = [VString e; VString y])
  /\ rows (RedisServer.emailAndBirthYearStreamingDF (session true true)
             [cache_change no_birthday_text]) = [].
Proof.
  split.
  - apply (proj1 (C5_job_b_prints_no_null (session true true)
                    [cache_change customer_text])
             [VString "sam.test@test.com"; VString "2001"]).
    vm_compute. left; reflexivity.
  - apply (proj2 (C5_job_b_prints_no_null (session true true) [])
             (cache_change no_birthday_text)
             [VString "Gail Spencer"; VString "Gail.Spencer@test.com";
              VString "8015551212"; VNull]).
    + vm_compute; reflexivity.
    + right; reflexivity.
Defined.

Lemma C10_witness :
  split_on "-" "1963" = ["1963"]
  /\ rows (RedisServer.emailAndBirthYearStreamingDF (session true true)
             [cache_change year_only_text])
     = [[VString "Gail.Spencer@test.com"; VString "1963"]].
Proof.
  apply (C10_birth_day_without_dash_is_kept_whole (session true true)
           (cache_change year_only_text) (VString "Gail Spencer")
           (VString "8015551212") "Gail.Spencer@test.com" "1963");
    vm_compute; reflexivity.
Defined.

Lemma C7_witness :
  rows (RedisServer.zSetEntriesEncodedStreamingDF (session true true)
          [cache_change customer_text])
  = [[VString (Base64.encode customer_text)]]
  /\ rows (RedisServer.zSetEntriesDecodedStreamingDF (session true true)
             [cache_change customer_text])
     = [[VString (Base64.encode customer_text); VString customer_text]]
  /\ rows (RedisServer.CustomerRecords (session true true)
             [cache_change customer_text])
     = [[VString "Sam Test"; VString "sam.test@test.com";
         VString "8015551212"; VString "2001-01-03"]].
Proof.
  destruct (C7_encoded_customer_comes_back (session true true) customer_text)
    as (H1 & H2 & _ & H4); [vm_compute; reflexivity|].
  split; [exact H1|split; [exact H2|]].
  apply (H4 [("customerName", JString "Sam Test");
             ("email", JString "sam.test@test.com");
             ("phone", JString "8015551212");
             ("birthDay", JString "2001-01-03")]);
    vm_compute; reflexivity.
Defined.

Lemma C8_witness :
  rows (RedisServer.emailAndBirthYearStreamingDF (session true true)
          [cache_change customer_text; cache_change customer_text])
  = [[VString "sam.test@test.com"; VString "2001"];
     [VString "sam.test@test.com"; VString "2001"]]
  /\ rows (RedisServer.emailAndBirthYearStreamingDF (session true true)
             [cache_change no_birthday_text; cache_change no_birthday_text])
     = [].
Proof.
  split.
  - apply (proj1 (proj2 (proj2 (proj2 (C8_each_record_is_handled_on_its_own
                                         (session true true)))))
             (cache_change customer_text)
             [VString "sam.test@test.com"; VString "2001"]).
    vm_compute; reflexivity.
  - apply (proj2 (proj2 (proj2 (proj2 (C8_each_record_is_handled_on_its_own
                                         (session true true)))))
             (cache_change no_birthday_text)).
    vm_compute; reflexivity.
Defined.

Lemma C9_witness :
  RedisServer.emailAndBirthYearStreamingDF (session true true)
    [message "redis-server"
       (two_entries_text (Base64.encode customer_text) (Base64.encode gail_text))]
  = RedisServer.emailAndBirthYearStreamingDF (session true true)
      [message "redis-server" (one_entry_text (Base64.encode customer_text))]
  /\ rows (RedisServer.zSetEntriesEncodedStreamingDF (session true true)
             [message "redis-server"
                (two_entries_text (Base64.encode customer_text)
                   (Base64.encode gail_text))])
     = [[VString (Base64.encode customer_text)]]
  /\ rows (RedisServer.zSetEntriesEncodedStreamingDF (session false true)
             [message "redis-server"
                (two_spellings_text (Base64.encode customer_text)
                   (Base64.encode gail_text))])
     = [[VString (Base64.encode customer_text)]]
  /\ RedisServer.RedisSortedSet (session true true) [cache_change customer_text]
     = RedisServer.RedisSortedSet (session true true)
         [message "redis-server"
            (one_spelling_text (Base64.encode customer_text))].
Proof.
  split; [|split; [|split]].
  - apply (proj1 (C9_first_entry_only_and_one_spelling (session true true))
             _ _
             (two_entries_text (Base64.encode customer_text)
                (Base64.encode gail_text))
             (one_entry_text (Base64.encode customer_text))
             [("key", JString "Q3VzdG9tZXI=");
              ("zSetEntries",
                JArray [JObject [("element", JString (Base64.encode customer_text));
                                 ("score", JString "0.0")];
                        JObject [("element", JString (Base64.encode gail_text));
                                 ("score", JString "1.0")]])]);
      vm_compute; reflexivity.
  - apply (proj1 (proj2 (C9_first_entry_only_and_one_spelling (session true true)))
             _
             (two_entries_text (Base64.encode customer_text)
                (Base64.encode gail_text))
             [("key", JString "Q3VzdG9tZXI=");
              ("zSetEntries",
                JArray [JObject [("element", JString (Base64.encode customer_text));
                                 ("score", JString "0.0")];
                        JObject [("element", JString (Base64.encode gail_text));
                                 ("score", JString "1.0")]])]
             [("element", JString (Base64.encode customer_text));
              ("score", JString "0.0")]
             [JObject [("element", JString (Base64.encode gail_text));
                       ("score", JString "1.0")]]);
      vm_compute; reflexivity.
  - apply (proj1 (proj2 (C9_first_entry_only_and_one_spelling (session false true)))
             _
             (two_spellings_text (Base64.encode customer_text)
                (Base64.encode gail_text))
             [("key", JString "Q3VzdG9tZXI=");
              ("zsetEntries",
                JArray [JObject [("element", JString (Base64.encode gail_text));
                                 ("score", JNumber "0.0")]]);
              ("zSetEntries",
                JArray [JObject [("element", JString (Base64.encode customer_text));
                                 ("Score", JNumber "0.0")]]);
              ("zsetentries",
                JArray [JObject [("element", JString (Base64.encode gail_text));
                                 ("score", JNumber "0.0")]])]
             [("element", JString (Base64.encode customer_text));
              ("Score", JNumber "0.0")]
             []);
      vm_compute; reflexivity.
  - apply (proj2 (proj2 (proj2 (proj2 (C9_first_entry_only_and_one_spelling
                                         (session true true)))))
             _ _
             (cache_change_text (Base64.encode customer_text))
             (one_spelling_text (Base64.encode customer_text))
             [("key", JString "Q3VzdG9tZXI="); ("existType", JString "NONE");
              ("Ch", JBool false); ("Incr", JBool false);
              ("zSetEntries",
                JArray [JObject [("element", JString (Base64.encode customer_text));
                                 ("Score", JNumber "0.0")]]);
              ("zsetEntries",
                JArray [JObject [("element", JString (Base64.encode customer_text));
                                 ("score", JNumber "0.0")]])]);
      vm_compute; reflexivity.
Defined.

(** The two payloads below have the same first entry, and the second has a
    number as a later entry.  A session without partial results gives up
    the record of the second: Job B prints the row of the first payload and
    no row of the second. *)
Lemma C9_counterexample :
  Json.parse (one_entry_text (Base64.encode customer_text))
  = Some (JObject
            [("key", JString "Q3VzdG9tZXI=");
             ("zSetEntries",
               JArray [JObject [("element", JString (Base64.encode customer_text));
                                ("score", JString "0.0")]])])
  /\ Json.parse (number_entry_text (Base64.encode customer_text))
     = Some (JObject
               [("key", JString "Q3VzdG9tZXI=");
                ("zSetEntries",
                  JArray [JObject [("element", JString (Base64.encode customer_text));
                                   ("score", JString "0.0")];
                          JNumber "5"])])
  /\ rows (RedisServer.emailAndBirthYearStreamingDF (session false true)
             [message "redis-server" (one_entry_text (Base64.encode customer_text))])
     = [[VString "sam.test@test.com"; VString "2001"]]
  /\ rows (RedisServer.RedisSortedSet (session false true)
             [message "redis-server"
                (number_entry_text (Base64.encode customer_text))])
     = [[VNull; VNull; VNull; VNull; VNull; VNull; VNull; VNull]]
  /\ rows (RedisServer.emailAndBirthYearStreamingDF (session false true)
             [message "redis-server"
                (number_entry_text (Base64.encode customer_text))])
     = []
  /\ rows (RedisServer.emailAndBirthYearStreamingDF (session false true)
             [message "redis-server" (one_entry_text (Base64.encode customer_text))])
     <> rows (RedisServer.emailAndBirthYearStreamingDF (session false true)
                [message "redis-server"
                   (number_entry_text (Base64.encode customer_text))]).
Proof.
  repeat split; try (vm_compute; reflexivity). vm_compute; discriminate.
Qed.

Lemma C6_witness :
  (rows (StediEvents.CustomerRisk (session true true)
           [message "stedi-events" cut_short_text]) = [[VNull; VNull; VNull]]
   /\ rows (StediEvents.customerRiskStreamingDF (session true true)
              [message "stedi-events" cut_short_text]) = [[VNull; VNull]])
  /\ (rows (RedisServer.RedisSortedSet (session true true)
              [message "redis-server" cut_short_text])
      = [[VNull; VNull; VNull; VNull; VNull; VNull; VNull; VNull]]
      /\ rows (RedisServer.emailAndBirthYearStreamingDF (session true true)
                 [message "redis-server" cut_short_text]) = [])
  /\ (rows (RedisServer.CustomerRecords (session true true)
              [cache_change cut_short_text]) = [[VNull; VNull; VNull; VNull]]
      /\ rows (RedisServer.emailAndBirthYearStreamingDF (session true true)
                 [cache_change cut_short_text]) = [])
  /\ nth 1 [VString "Spencer.Davis@test.com"; VNull; VNull] VNull = VNull
  /\ (exists customer,
         rows (StediEvents.customerRiskStreamingDF (session true true)
                 [message "stedi-events" customer_only_text])
         = [[customer; VNull]])
  /\ (nth 3 [VString "Gail Spencer"; VString "Gail.Spencer@test.com";
             VString "8015551212"; VNull] VNull = VNull
      /\ rows (RedisServer.emailAndBirthYearStreamingDF (session true true)
                 [cache_change no_birthday_text]) = []).
Proof.
  pose proof (C6_rejected_text_gives_nulls_and_an_absent_field_one_null
                (session true true)) as (A & B & C & D & D' & E).
  split; [|split; [|split; [|split; [|split]]]].
  - apply (A (message "stedi-events" cut_short_text) cut_short_text);
      vm_compute; reflexivity.
  - apply (B (message "redis-server" cut_short_text) cut_short_text);
      vm_compute; reflexivity.
  - apply (C (cache_change cut_short_text)
             (VString (Base64.encode cut_short_text)) cut_short_text);
      vm_compute; reflexivity.
  - apply (proj1 (D (message "stedi-events" customer_only_text) customer_only_text
                    [("customer", JString "Spencer.Davis@test.com")]
                    "score" 1 StringType
                    [VString "Spencer.Davis@test.com"; VNull; VNull]
                    eq_refl eq_refl eq_refl));
      vm_compute; reflexivity.
  - apply (proj2 (D' (message "stedi-events" customer_only_text) customer_only_text
                     [("customer", JString "Spencer.Davis@test.com")]
                     eq_refl eq_refl)).
    vm_compute; reflexivity.
  - destruct (E (cache_change no_birthday_text)
                (VString (Base64.encode no_birthday_text)) no_birthday_text
                [("customerName", JString "Gail Spencer");
                 ("email", JString "Gail.Spencer@test.com");
                 ("phone", JString "8015551212")]
                "birthDay" 3 StringType
                [VString "Gail Spencer"; VString "Gail.Spencer@test.com";
                 VString "8015551212"; VNull]) as [E1 E2];
      try (vm_compute; reflexivity).
    split; [exact E1|]. apply E2. right; reflexivity.
Defined.

(** The payloads below lack a field of their schema: the record read from
    them is not a record of nulls, Job A does not print a row of nulls, and
    Job B does print the row. *)
Lemma C6_counterexample :
  Json.parse customer_only_text
  = Some (JObject [("customer", JString "Spencer.Davis@test.com")])
  /\ rows (StediEvents.CustomerRisk (session true true)
             [message "stedi-events" customer_only_text])
     = [[VString "Spencer.Davis@test.com"; VNull; VNull]]
  /\ rows (StediEvents.CustomerRisk (session true true)
             [message "stedi-events" customer_only_text])
     <> [[VNull; VNull; VNull]]
  /\ rows (StediEvents.customerRiskStreamingDF (session true true)
             [message "stedi-events" customer_only_text])
     <> [[VNull; VNull]]
  /\ Json.parse no_phone_text
     = Some (JObject [("customerName", JString "Gail Spencer");
                      ("email", JString "Gail.Spencer@test.com");
                      ("birthDay", JString "1963-04-12")])
  /\ rows (RedisServer.CustomerRecords (session true true)
             [cache_change no_phone_text])
     <> [[VNull; VNull; VNull; VNull]]
  /\ rows (RedisServer.emailAndBirthYearStreamingDF (session true true)
             [cache_change no_phone_text])
     = [[VString "Gail.Spencer@test.com"; VString "1963"]].
Proof.
  repeat split; try (vm_compute; reflexivity); vm_compute; discriminate.
Qed.

(** A risk event whose score is a JSON number: the score is printed with
    the digits of the message. *)
Lemma risk_event_with_a_number :
  rows (StediEvents.customerRiskStreamingDF (session true true)
          [message "stedi-events"
             (Json.text "{'customer':'Spencer.Davis@test.com','score':-1.4,'riskDate':'2020-09-14'}")])
  = [[VString "Spencer.Davis@test.com"; VString "-1.4"]].
Proof. vm_compute. reflexivity. Qed.

(** * Further properties of the two jobs *)

Section Further.

Variable spark : SparkSession.

Import StediEvents RedisServer.

(** ** What a row is made of *)

Lemma payload_cells (raw : list KafkaRecord) :
  map payload_cell raw
  = map (fun v => match v with Some bytes => VString bytes | None => VNull end)
        (map value raw).
Proof. rewrite map_map. reflexivity. Qed.

Lemma final_rows_of_RedisSortedSet raw :
  rows (emailAndBirthYearStreamingDF spark raw)
  = map (fun r => [nth 1 r VNull; year_of (nth 3 r VNull)])
        (filter both_present
           (map (fun r => parsed_row spark customerSchema
                            (decoded (first_element (nth 7 r VNull))))
                (rows (RedisSortedSet spark raw)))).
Proof.
  rewrite emailAndBirthYear_of_CustomerRecords, CustomerRecords_of_RedisSortedSet.
  reflexivity.
Qed.

(** X1. Both jobs read the payload of a record and nothing else: two
    batches whose records carry the same payloads, in the same order, give
    the same frames, whatever the keys, topics, partitions, offsets and
    timestamps of the records. *)
Theorem X1_only_the_payload_is_read (raw raw' : list KafkaRecord) :
  map value raw = map value raw' ->
  customerRiskStreamingDF spark raw = customerRiskStreamingDF spark raw'
  /\ emailAndBirthYearStreamingDF spark raw = emailAndBirthYearStreamingDF spark raw'.
Proof.
  intros H.
  assert (Hc : map payload_cell raw = map payload_cell raw')
    by (rewrite !payload_cells, H; reflexivity).
  split.
  - rewrite (frame_eq (customerRiskStreamingDF spark raw') _ _ eq_refl eq_refl).
    apply frame_eq; [reflexivity|].
    rewrite !customerRiskStreamingDF_rows, !CustomerRisk_rows.
    rewrite <- !(map_map payload_cell), Hc. reflexivity.
  - rewrite (frame_eq (emailAndBirthYearStreamingDF spark raw') _ _ eq_refl eq_refl).
    apply frame_eq; [reflexivity|].
    rewrite !final_rows_of_RedisSortedSet, !RedisSortedSet_rows.
    rewrite <- !(map_map payload_cell (fun c => parsed_row spark kafkaRedisSchema c)), Hc.
    reflexivity.
Qed.

(** X2. A record without payload: Job A prints a row of nulls for it, every
    column of the parsed views is null, and Job B prints nothing. *)
Theorem X2_record_without_payload (m : KafkaRecord) :
  value m = None ->
  rows (CustomerRisk spark [m]) = [[VNull; VNull; VNull]]
  /\ rows (customerRiskStreamingDF spark [m]) = [[VNull; VNull]]
  /\ rows (RedisSortedSet spark [m])
     = [[VNull; VNull; VNull; VNull; VNull; VNull; VNull; VNull]]
  /\ rows (CustomerRecords spark [m]) = [[VNull; VNull; VNull; VNull]]
  /\ rows (emailAndBirthYearStreamingDF spark [m]) = [].
Proof.
  intros Hv.
  assert (HA : rows (CustomerRisk spark [m]) = [[VNull; VNull; VNull]])
    by (rewrite CustomerRisk_rows; simpl; unfold payload_cell; rewrite Hv; reflexivity).
  assert (HB : rows (RedisSortedSet spark [m])
               = [[VNull; VNull; VNull; VNull; VNull; VNull; VNull; VNull]])
    by (rewrite RedisSortedSet_rows; simpl; unfold payload_cell; rewrite Hv; reflexivity).
  assert (HC : rows (CustomerRecords spark [m]) = [[VNull; VNull; VNull; VNull]])
    by (rewrite CustomerRecords_of_RedisSortedSet, HB; reflexivity).
  split; [exact HA|split; [|split; [exact HB|split; [exact HC|]]]].
  - rewrite customerRiskStreamingDF_rows, HA. reflexivity.
  - rewrite emailAndBirthYear_of_CustomerRecords, HC. reflexivity.
Qed.

(** X3. Job A prints one row for each record of a batch, it drops none;
    [CustomerRecords] has one row for each record; Job B prints as many
    rows as there are rows of [CustomerRecords] with both [email] and
    [birthDay], never more than there are records. *)
Theorem X3_number_of_rows (raw : list KafkaRecord) :
  List.length (rows (customerRiskStreamingDF spark raw)) = List.length raw
  /\ List.length (rows (CustomerRecords spark raw)) = List.length raw
  /\ List.length (rows (emailAndBirthYearStreamingDF spark raw))
     = List.length (filter both_present (rows (CustomerRecords spark raw)))
  /\ List.length (rows (emailAndBirthYearStreamingDF spark raw)) <= List.length raw.
Proof.
  assert (HA : List.length (rows (customerRiskStreamingDF spark raw)) = List.length raw)
    by (rewrite customerRiskStreamingDF_rows, CustomerRisk_rows, !length_map; reflexivity).
  assert (HC : List.length (rows (CustomerRecords spark raw)) = List.length raw)
    by (rewrite CustomerRecords_of_RedisSortedSet, RedisSortedSet_rows, !length_map;
        reflexivity).
  assert (HB : List.length (rows (emailAndBirthYearStreamingDF spark raw))
               = List.length (filter both_present (rows (CustomerRecords spark raw))))
    by (rewrite emailAndBirthYear_of_CustomerRecords, length_map; reflexivity).
  repeat split; try assumption.
  rewrite HB, <- HC. apply filter_length_le.
Qed.

Lemma parsed_row_member_cell (fs : Schema) (text : string)
      (members : list (string * json)) (k : string) (i : nat) :
  Forall (fun f => snd f = StringType) fs ->
  read_json spark text = Some (JObject members) ->
  field_index k fs = Some (i, StringType) ->
  nth i (parsed_row spark (StructType fs) (VString text)) VNull
  = member_cell spark k members.
Proof.
  intros Hfs Hr Hk. unfold member_cell.
  destruct (member k members) as [j|] eqn:Hm.
  - eapply parsed_row_string_field; eassumption.
  - eapply parsed_row_absent; eassumption.
Qed.

(** X4. For a payload that reads as an object, the row that Job A prints
    holds the cells of the members [customer] and [score]: a string as it
    is, a null or an absent member as null, a value of another kind as the
    text the session writes for it.  No other member has a part in it. *)
Theorem X4_job_a_row_from_the_members
        (m : KafkaRecord) (payload : string) (members : list (string * json)) :
  value m = Some payload ->
  read_json spark payload = Some (JObject members) ->
  rows (customerRiskStreamingDF spark [m])
  = [[member_cell spark "customer" members; member_cell spark "score" members]].
Proof.
  intros Hv Hr.
  rewrite customerRiskStreamingDF_rows, CustomerRisk_rows; simpl.
  unfold payload_cell; rewrite Hv.
  change kafkaStediEventSchema with (StructType (fields_of kafkaStediEventSchema)).
  rewrite (parsed_row_member_cell _ _ _ "customer" 0 all_strings_event Hr eq_refl).
  rewrite (parsed_row_member_cell _ _ _ "score" 1 all_strings_event Hr eq_refl).
  reflexivity.
Qed.

Lemma four_cells (l : list datum) :
  List.length l = 4 ->
  l = [nth 0 l VNull; nth 1 l VNull; nth 2 l VNull; nth 3 l VNull].
Proof.
  destruct l as [|a [|b [|c [|d [|]]]]]; simpl; intros H; try discriminate.
  reflexivity.
Qed.

(** X5. When the decoded text of a record reads as an object, its row in
    [CustomerRecords] holds the cells of the members [customerName],
    [email], [phone] and [birthDay], in this order, and no other member has
    a part in it. *)
Theorem X5_inner_record_from_the_members
        (m : KafkaRecord) (e : datum) (text : string)
        (members : list (string * json)) :
  rows (zSetEntriesDecodedStreamingDF spark [m]) = [[e; VString text]] ->
  read_json spark text = Some (JObject members) ->
  rows (CustomerRecords spark [m])
  = [[member_cell spark "customerName" members;
      member_cell spark "email" members;
      member_cell spark "phone" members;
      member_cell spark "birthDay" members]].
Proof.
  intros Hd Hr. rewrite (CustomerRecords_of_decoded spark _ _ _ Hd). f_equal.
  change customerSchema with (StructType (fields_of customerSchema)).
  rewrite (four_cells (parsed_row spark (StructType (fields_of customerSchema))
                         (VString text)))
    by apply parsed_row_length.
  rewrite (parsed_row_member_cell _ _ _ "customerName" 0 all_strings_customer Hr eq_refl).
  rewrite (parsed_row_member_cell _ _ _ "email" 1 all_strings_customer Hr eq_refl).
  rewrite (parsed_row_member_cell _ _ _ "phone" 2 all_strings_customer Hr eq_refl).
  rewrite (parsed_row_member_cell _ _ _ "birthDay" 3 all_strings_customer Hr eq_refl).
  reflexivity.
Qed.

(** X6. Of the inner record, Job B uses [email] and [birthDay] only: two
    records whose rows in [CustomerRecords] agree on these two columns give
    the same frame, whatever their [customerName] and [phone]. *)
Theorem X6_name_and_phone_are_not_used
        (m1 m2 : KafkaRecord) (n1 p1 n2 p2 e b : datum) :
  rows (CustomerRecords spark [m1]) = [[n1; e; p1; b]] ->
  rows (CustomerRecords spark [m2]) = [[n2; e; p2; b]] ->
  emailAndBirthYearStreamingDF spark [m1] = emailAndBirthYearStreamingDF spark [m2].
Proof.
  intros H1 H2.
  rewrite (frame_eq (emailAndBirthYearStreamingDF spark [m2]) _ _ eq_refl eq_refl).
  apply frame_eq; [reflexivity|].
  rewrite (CustomerRecords_single spark _ _ H1), (CustomerRecords_single spark _ _ H2).
  reflexivity.
Qed.

(** X7. Of the outer record, Job B uses the element of the first entry of
    [zSetEntries] only: two records whose first entries have the same
    element give the same frame, whatever the scores, the further entries
    and the other columns of [RedisSortedSet]. *)
Theorem X7_only_the_first_element_is_used
        (m1 m2 : KafkaRecord) (r1 r2 : list datum) (element : datum)
        (more1 more2 rest1 rest2 : list datum) :
  rows (RedisSortedSet spark [m1]) = [r1] ->
  rows (RedisSortedSet spark [m2]) = [r2] ->
  nth 7 r1 VNull = VArray (VStruct (element :: more1) :: rest1) ->
  nth 7 r2 VNull = VArray (VStruct (element :: more2) :: rest2) ->
  emailAndBirthYearStreamingDF spark [m1] = emailAndBirthYearStreamingDF spark [m2].
Proof.
  intros H1 H2 E1 E2.
  apply (final_of_first_element spark m1 m2 r1 r2 H1 H2).
  rewrite E1, E2. reflexivity.
Qed.

(** ** Records that carry no element *)

(** X8. A cache-change message that reads as an object gives no row in
    Job B when it has no member [zSetEntries], when that member is null,
    and when it is an array of objects whose first entry has no member
    [element] or a null one: the encoded customer is null in each case. *)
Theorem X8_no_element_no_row
        (m : KafkaRecord) (payload : string) (members : list (string * json)) :
  value m = Some payload ->
  read_json spark payload = Some (JObject members) ->
  member "zSetEntries" members = None
  \/ member "zSetEntries" members = Some JNull
  \/ (exists entry rest,
         member "zSetEntries" members = Some (JArray (JObject entry :: rest))
         /\ forallb is_object rest = true
         /\ (member "element" entry = None
             \/ member "element" entry = Some JNull)) ->
  rows (zSetEntriesEncodedStreamingDF spark [m]) = [[VNull]]
  /\ rows (emailAndBirthYearStreamingDF spark [m]) = [].
Proof.
  intros Hv Hr Hcases.
  pose proof (RedisSortedSet_single spark m) as Hrow.
  unfold payload_cell in Hrow; rewrite Hv in Hrow.
  assert (He : first_element
                 (nth 7 (parsed_row spark kafkaRedisSchema (VString payload)) VNull)
               = VNull).
  { destruct Hcases as [Hm|[Hm|(entry & rest & Hm & Hrest & Hel)]].
    - change kafkaRedisSchema with (StructType (fields_of kafkaRedisSchema)).
      rewrite (parsed_row_absent spark _ _ _ _ _ _ Hr entries_type Hm). reflexivity.
    - change kafkaRedisSchema with (StructType (fields_of kafkaRedisSchema)).
      destruct (parsed_row_member spark _ payload members "zSetEntries" 7 _ JNull VNull
                  Hr entries_type Hm eq_refl) as [-> | ->]; reflexivity.
    - destruct (first_element_of_entries spark payload members entry rest Hr Hm Hrest)
        as [-> | ->]; [|reflexivity].
      unfold member_cell. destruct Hel as [-> | ->]; reflexivity. }
  destruct (stages_of_RedisSortedSet spark _ _ Hrow) as (H1 & _ & H3).
  rewrite He in H1, H3. split; [exact H1|].
  rewrite (CustomerRecords_single spark _ _ H3). reflexivity.
Qed.

(** ** The year *)

Lemma occurs_before_first (sep : ascii) (s : string) :
  occurs sep (before_first sep s) = false.
Proof.
  induction s as [|c s IH]; simpl; [reflexivity|].
  destruct (Ascii.eqb c sep) eqn:E; simpl; [reflexivity|].
  rewrite E, IH. reflexivity.
Qed.

Lemma prefix_before_first (sep : ascii) (s : string) :
  String.prefix (before_first sep s) s = true.
Proof.
  induction s as [|c s IH]; simpl; [reflexivity|].
  destruct (Ascii.eqb c sep); simpl; [reflexivity|].
  destruct (ascii_dec c c); [exact IH|congruence].
Qed.

(** X9. Every row that Job B prints comes from a row of [CustomerRecords]
    of the same batch with a string in [email] and in [birthDay]: it holds
    that email, and a [birthYear] that has no [-] in it and is the
    beginning of that [birthDay]. *)
Theorem X9_birth_year_begins_birth_day (raw : list KafkaRecord) (row : list datum) :
  In row (rows (emailAndBirthYearStreamingDF spark raw)) ->
  exists n e p b y,
    In [n; VString e; p; VString b] (rows (CustomerRecords spark raw))
    /\ row = [VString e; VString y]
    /\ y = before_first "-" b
    /\ occurs "-" y = false
    /\ String.prefix y b = true.
Proof.
  rewrite emailAndBirthYear_of_CustomerRecords.
  intros H. apply in_map_iff in H. destruct H as (r & <- & Hr).
  apply filter_In in Hr. destruct Hr as [Hin Hp].
  destruct (CustomerRecords_cells spark raw r Hin) as [Hc Hl].
  destruct r as [|n [|e [|p [|b [|]]]]]; simpl in Hl; try discriminate.
  inversion Hc as [|? ? _ Hc1]; subst. inversion Hc1 as [|? ? Hes Hc2]; subst.
  inversion Hc2 as [|? ? _ Hc3]; subst. inversion Hc3 as [|? ? Hbs _]; subst.
  unfold both_present in Hp; simpl in Hp.
  destruct Hes as [->|[es ->]]; [discriminate|].
  destruct Hbs as [->|[bs ->]]; [discriminate|].
  exists n, es, p, bs, (before_first "-" bs).
  split; [exact Hin|]. split.
  - simpl. unfold year_of. rewrite split_first. reflexivity.
  - split; [reflexivity|].
    split; [apply occurs_before_first|apply prefix_before_first].
Qed.

(** X10. The filter of Job B removes nulls, not empty strings: a record
    with a string [email], be it empty, and a [birthDay] that is empty or
    begins with [-] is printed, with the empty string as [birthYear]. *)
Theorem X10_empty_birth_year_is_printed
        (m : KafkaRecord) (n p : datum) (e b : string) :
  rows (CustomerRecords spark [m]) = [[n; VString e; p; VString b]] ->
  b = "" \/ (exists rest, b = String "-" rest) ->
  rows (emailAndBirthYearStreamingDF spark [m]) = [[VString e; VString ""]].
Proof.
  intros H Hb. rewrite (CustomerRecords_single spark _ _ H). simpl.
  destruct Hb as [-> | [rest ->]]; reflexivity.
Qed.

(** ** Cells fit their columns *)

Lemma has_type_array (et : DataType) (items : list datum) :
  has_type (ArrayType et) (VArray items) = forallb (has_type et) items.
Proof.
  simpl. induction items as [|x items IH]; simpl; [reflexivity|].
  rewrite IH. reflexivity.
Qed.

Lemma row_typed_cons (k : string) (t : DataType) (fs : Schema)
      (x : datum) (row : list datum) :
  row_typed ((k, t) :: fs) (x :: row) = has_type t x && row_typed fs row.
Proof. reflexivity. Qed.

Lemma row_typed_nulls (fs : Schema) : row_typed fs (nulls fs) = true.
Proof.
  induction fs as [|[k t] fs IH]; [reflexivity|].
  change (nulls ((k, t) :: fs)) with (VNull :: nulls fs).
  rewrite row_typed_cons, IH. reflexivity.
Qed.

Lemma row_typed_update (fs : Schema) (k : string) (i : nat) (t : DataType)
      (x : datum) (row : list datum) :
  row_typed fs row = true ->
  field_index k fs = Some (i, t) ->
  has_type t x = true ->
  row_typed fs (update i x row) = true.
Proof.
  revert i row; induction fs as [|[k' t'] fs IH]; intros i row Hrow Hk Hx;
    [discriminate|].
  destruct row as [|y row]; [discriminate|].
  rewrite row_typed_cons in Hrow. apply andb_true_iff in Hrow.
  destruct Hrow as [Hy Hrow]. simpl in Hk.
  destruct (String.eqb k' k).
  - inversion Hk; subst. simpl update. rewrite row_typed_cons, Hx, Hrow. reflexivity.
  - destruct (field_index k fs) as [[i' t'']|] eqn:Hk'; [|discriminate].
    inversion Hk; subst. simpl update.
    rewrite row_typed_cons, Hy. simpl. eapply IH; eauto.
Qed.

(** A typed row has one cell per column, each fitting its column. *)
Lemma row_typed_cells (fs : Schema) (row : list datum) :
  row_typed fs row = true ->
  List.length row = List.length fs
  /\ forall k i t, field_index k fs = Some (i, t) ->
                   has_type t (nth i row VNull) = true.
Proof.
  revert row; induction fs as [|[k' t'] fs IH]; intros row H.
  - destruct row; [|discriminate]. split; [reflexivity|]. intros; discriminate.
  - destruct row as [|y row]; [discriminate|].
    rewrite row_typed_cons in H. apply andb_true_iff in H. destruct H as [Hy H].
    destruct (IH row H) as [Hl Hc]. split; [simpl; congruence|].
    intros k i t Hk. simpl in Hk. destruct (String.eqb k' k).
    + inversion Hk; subst. exact Hy.
    + destruct (field_index k fs) as [[i' t'']|] eqn:Hk'; [|discriminate].
      inversion Hk; subst. simpl. eapply Hc; eassumption.
Qed.

Lemma convert_items_typed (n : nat) (et : DataType) :
  (forall j t v, json_size j <= n -> convert spark t j = Some v ->
                 has_type t v = true) ->
  forall items vs,
    fold_right (fun x m => json_size x + m) 0 items <= n ->
    convert_items spark et items = Some vs ->
    forallb (has_type et) vs = true.
Proof.
  intros IH. induction items as [|x items IHi]; simpl; intros vs Hn H.
  - inversion H; reflexivity.
  - destruct (convert spark et x) as [v|] eqn:Ex; [|discriminate].
    destruct (convert_items spark et items) as [vs'|]; [|discriminate].
    inversion H; subst; simpl.
    rewrite (IH x et v) by (assumption || lia).
    apply IHi; [lia|reflexivity].
Qed.

Lemma fill_struct_typed (n : nat) (fs : Schema) :
  (forall j t v, json_size j <= n -> convert spark t j = Some v ->
                 has_type t v = true) ->
  forall ms row row',
    fold_right (fun kv m => json_size (snd kv) + m) 0 ms <= n ->
    row_typed fs row = true ->
    fill_struct spark fs ms row = Some row' ->
    row_typed fs row' = true.
Proof.
  intros IH. induction ms as [|[k v] ms IHm]; simpl; intros row row' Hn Hrow H.
  - inversion H; subst; assumption.
  - destruct (field_index k fs) as [[i ti]|] eqn:Hk; [|apply (IHm row); auto; lia].
    destruct (convert spark ti v) as [x|] eqn:Ex; [|discriminate].
    apply (IHm (update i x row)); [lia| |assumption].
    eapply row_typed_update; eauto. apply (IH v ti x); [lia|assumption].
Qed.

Lemma convert_typed_upto (n : nat) :
  forall j t v, json_size j <= n -> convert spark t j = Some v ->
                has_type t v = true.
Proof.
  induction n as [|n IH]; intros j t v Hn H.
  - destruct j; simpl in Hn; lia.
  - destruct t, j;
      try (simpl in H; inversion H; subst; reflexivity);
      try discriminate H.
    + simpl in H. destruct (read_binary spark s); inversion H; reflexivity.
    + rewrite convert_array_items in H.
      destruct (convert_items spark t items) as [vs|] eqn:E; [|discriminate].
      inversion H; subst. rewrite has_type_array.
      eapply convert_items_typed; [exact IH| |exact E].
      simpl in Hn; lia.
    + rewrite convert_struct_fill in H.
      destruct (fill_struct spark fields members (nulls fields)) as [row|] eqn:E;
        [|discriminate].
      inversion H; subst.
      eapply fill_struct_typed; [exact IH| |apply row_typed_nulls|exact E].
      simpl in Hn; lia.
Qed.

(** What the conversion gives fits the type it was given. *)
Lemma convert_typed (j : json) (t : DataType) (v : datum) :
  convert spark t j = Some v -> has_type t v = true.
Proof. apply (convert_typed_upto (json_size j)); lia. Qed.

Lemma fill_root_typed (fs : Schema) (ms : list (string * json))
      (row row' : list datum) :
  row_typed fs row = true ->
  fill_root spark fs ms row = Some row' ->
  row_typed fs row' = true.
Proof.
  revert row; induction ms as [|[k v] ms IH]; simpl; intros row Hrow H.
  - inversion H; subst; assumption.
  - destruct (field_index k fs) as [[i ti]|] eqn:Hk; [|eauto].
    destruct (convert spark ti v) as [x|] eqn:Ex.
    + apply (IH (update i x row)); [|assumption].
      eapply row_typed_update; eauto using convert_typed.
    + destruct (partialResults spark); [eauto|discriminate].
Qed.

(** Whatever the cell, the columns that [from_json] and the star make of
    it fit the schema. *)
Lemma parsed_row_typed (fs : Schema) (cell : datum) :
  row_typed fs (parsed_row spark (StructType fs) cell) = true.
Proof.
  unfold parsed_row; simpl.
  destruct cell; simpl; try apply row_typed_nulls.
  destruct (read_json spark s) as [[]|];
    try (rewrite given_up_cells; apply row_typed_nulls).
  destruct (fill_root spark fs members (nulls fs)) as [row|] eqn:E.
  - simpl. eapply fill_root_typed; [apply row_typed_nulls|exact E].
  - rewrite given_up_cells; apply row_typed_nulls.
Qed.

Ltac bad_row H :=
  cbn in H; repeat (apply andb_true_iff in H; destruct H as [_ H]); discriminate.

Lemma first_element_typed (entries : datum) :
  has_type (ArrayType (StructType [("element", StringType); ("score", StringType)]))
           entries = true ->
  has_type StringType (first_element entries) = true.
Proof.
  destruct entries as [| | | |[|[| | | | |[|e cells]] items]|]; try reflexivity.
  rewrite has_type_array. simpl forallb. intros H.
  apply andb_true_iff in H. destruct H as [H _].
  change (row_typed [("element", StringType); ("score", StringType)] (e :: cells) = true) in H.
  rewrite row_typed_cons in H. apply andb_true_iff in H. destruct H as [H _].
  exact H.
Qed.

Lemma decoded_typed (e : datum) : has_type StringType (decoded e) = true.
Proof. destruct e; reflexivity. Qed.

Lemma year_of_typed (b : datum) : has_type StringType (year_of b) = true.
Proof. destruct b; try reflexivity. simpl. rewrite split_first. reflexivity. Qed.

Lemma well_typed_source (raw : list KafkaRecord) :
  well_typed (selectExpr_cast_value_as_string raw).
Proof.
  intros row H. simpl in H. apply in_map_iff in H. destruct H as (m & <- & _).
  unfold payload_cell. destruct (value m); reflexivity.
Qed.

Lemma well_typed_CustomerRisk raw : well_typed (CustomerRisk spark raw).
Proof.
  intros row H. rewrite CustomerRisk_rows in H.
  apply in_map_iff in H. destruct H as (m & <- & _).
  apply (parsed_row_typed (fields_of kafkaStediEventSchema)).
Qed.

Lemma well_typed_customerRiskStreamingDF raw :
  well_typed (customerRiskStreamingDF spark raw).
Proof.
  intros row H. rewrite customerRiskStreamingDF_rows in H.
  apply in_map_iff in H. destruct H as (r & <- & Hr).
  apply well_typed_CustomerRisk in Hr. apply row_typed_cells in Hr.
  destruct Hr as [_ Hc].
  change (has_type StringType (nth 0 r VNull)
          && (has_type StringType (nth 1 r VNull) && true) = true).
  rewrite (Hc "customer" 0 StringType eq_refl), (Hc "score" 1 StringType eq_refl).
  reflexivity.
Qed.

Lemma well_typed_RedisSortedSet raw : well_typed (RedisSortedSet spark raw).
Proof.
  intros row H. rewrite RedisSortedSet_rows in H.
  apply in_map_iff in H. destruct H as (m & <- & _).
  apply (parsed_row_typed (fields_of kafkaRedisSchema)).
Qed.

Lemma well_typed_zSetEntriesEncodedStreamingDF raw :
  well_typed (zSetEntriesEncodedStreamingDF spark raw).
Proof.
  intros row H. rewrite zSetEntriesEncodedStreamingDF_rows in H.
  apply in_map_iff in H. destruct H as (r & <- & Hr).
  apply well_typed_RedisSortedSet in Hr. apply row_typed_cells in Hr.
  destruct Hr as [_ Hc]. specialize (Hc "zSetEntries" 7 _ eq_refl).
  change (has_type StringType (first_element (nth 7 r VNull)) && true = true).
  rewrite (first_element_typed _ Hc). reflexivity.
Qed.

Lemma well_typed_zSetEntriesDecodedStreamingDF raw :
  well_typed (zSetEntriesDecodedStreamingDF spark raw).
Proof.
  intros row H. rewrite zSetEntriesDecodedStreamingDF_rows in H.
  apply in_map_iff in H. destruct H as (r & <- & Hr).
  apply well_typed_zSetEntriesEncodedStreamingDF in Hr.
  destruct r as [|e [|d r]]; try discriminate; [|bad_row Hr].
  change (row_typed [("encodedCustomer", StringType)] [e] = true) in Hr.
  rewrite row_typed_cons in Hr. apply andb_true_iff in Hr. destruct Hr as [He _].
  change (has_type StringType e && (has_type StringType (decoded e) && true) = true).
  rewrite He, decoded_typed. reflexivity.
Qed.

Lemma well_typed_CustomerRecords raw : well_typed (CustomerRecords spark raw).
Proof.
  intros row H. rewrite CustomerRecords_rows in H.
  apply in_map_iff in H. destruct H as (r & <- & _).
  apply (parsed_row_typed (fields_of customerSchema)).
Qed.

Lemma well_typed_emailAndBirthDayStreamingDF raw :
  well_typed (emailAndBirthDayStreamingDF spark raw).
Proof.
  intros row H. rewrite emailAndBirthDayStreamingDF_rows in H.
  apply in_map_iff in H. destruct H as (r & <- & Hr).
  apply filter_In in Hr. destruct Hr as [Hr _].
  apply well_typed_CustomerRecords in Hr. apply row_typed_cells in Hr.
  destruct Hr as [_ Hc].
  change (has_type StringType (nth 1 r VNull)
          && (has_type StringType (nth 3 r VNull) && true) = true).
  rewrite (Hc "email" 1 StringType eq_refl), (Hc "birthDay" 3 StringType eq_refl).
  reflexivity.
Qed.

Lemma well_typed_emailAndBirthDayStreamingDF' raw :
  well_typed (emailAndBirthDayStreamingDF' spark raw).
Proof.
  intros row H. rewrite emailAndBirthDayStreamingDF'_rows in H.
  apply in_map_iff in H. destruct H as (r & <- & Hr).
  apply well_typed_emailAndBirthDayStreamingDF in Hr.
  destruct r as [|e [|b [|d r]]]; try discriminate; try (bad_row Hr).
  change (has_type StringType e && (has_type StringType b && true) = true) in Hr.
  apply andb_true_iff in Hr. destruct Hr as [He Hb].
  apply andb_true_iff in Hb. destruct Hb as [Hb _].
  change (has_type StringType e
          && (has_type StringType b && (has_type StringType (year_of b) && true))
          = true).
  rewrite He, Hb, year_of_typed. reflexivity.
Qed.

Lemma well_typed_emailAndBirthYearStreamingDF raw :
  well_typed (emailAndBirthYearStreamingDF spark raw).
Proof.
  intros row H. rewrite emailAndBirthYearStreamingDF_rows in H.
  apply in_map_iff in H. destruct H as (r & <- & Hr).
  apply well_typed_emailAndBirthDayStreamingDF' in Hr. apply row_typed_cells in Hr.
  destruct Hr as [_ Hc].
  change (has_type StringType (nth 0 r VNull)
          && (has_type StringType (nth 2 r VNull) && true) = true).
  rewrite (Hc "email" 0 StringType eq_refl), (Hc "birthYear" 2 StringType eq_refl).
  reflexivity.
Qed.

(** X11. The columns of the frames do not depend on the records: for
    every batch, well-formed or not, Job A prints the string columns
    [customer] and [score], Job B the string columns [email] and
    [birthYear], and the views and frames in between have the columns
    listed here, in this order. *)
Theorem X11_columns_of_the_frames (raw : list KafkaRecord) :
  (schema (stediEventsStreamingDF raw) = [("value", StringType)]
   /\ map fst (schema (CustomerRisk spark raw)) = ["customer"; "score"; "riskDate"]
   /\ schema (customerRiskStreamingDF spark raw)
      = [("customer", StringType); ("score", StringType)])
  /\ (schema (redisServerStreamingDF raw) = [("value", StringType)]
      /\ map fst (schema (RedisSortedSet spark raw))
         = ["key"; "value"; "expiredType"; "expiredValue"; "existType";
            "ch"; "incr"; "zSetEntries"]
      /\ schema (zSetEntriesEncodedStreamingDF spark raw)
         = [("encodedCustomer", StringType)]
      /\ schema (zSetEntriesDecodedStreamingDF spark raw)
         = [("encodedCustomer", StringType); ("customer", StringType)]
      /\ map fst (schema (CustomerRecords spark raw))
         = ["customerName"; "email"; "phone"; "birthDay"]
      /\ schema (emailAndBirthDayStreamingDF spark raw)
         = [("email", StringType); ("birthDay", StringType)]
      /\ schema (emailAndBirthDayStreamingDF' spark raw)
         = [("email", StringType); ("birthDay", StringType);
            ("birthYear", StringType)]
      /\ schema (emailAndBirthYearStreamingDF spark raw)
         = [("email", StringType); ("birthYear", StringType)]).
Proof. repeat split. Qed.

(** X12. Every row of every frame of the two jobs fits the columns of its
    frame, for every batch and whatever the payloads hold: it has one cell
    per column, and each cell is null or a value of the type of its column
    (a string in a string column, a boolean in [incr], an array of structs
    of two string cells in [zSetEntries]). *)
Theorem X12_rows_fit_their_columns (raw : list KafkaRecord) :
  (well_typed (stediEventsStreamingDF raw)
   /\ well_typed (CustomerRisk spark raw)
   /\ well_typed (customerRiskStreamingDF spark raw))
  /\ (well_typed (redisServerStreamingDF raw)
      /\ well_typed (RedisSortedSet spark raw)
      /\ well_typed (zSetEntriesEncodedStreamingDF spark raw)
      /\ well_typed (zSetEntriesDecodedStreamingDF spark raw)
      /\ well_typed (CustomerRecords spark raw)
      /\ well_typed (emailAndBirthDayStreamingDF spark raw)
      /\ well_typed (emailAndBirthDayStreamingDF' spark raw)
      /\ well_typed (emailAndBirthYearStreamingDF spark raw)).
Proof.
  split; [split; [|split]|split; [|split; [|split; [|split; [|split; [|split; [|split]]]]]]].
  - apply well_typed_source.
  - apply well_typed_CustomerRisk.
  - apply well_typed_customerRiskStreamingDF.
  - apply well_typed_source.
  - apply well_typed_RedisSortedSet.
  - apply well_typed_zSetEntriesEncodedStreamingDF.
  - apply well_typed_zSetEntriesDecodedStreamingDF.
  - apply well_typed_CustomerRecords.
  - apply well_typed_emailAndBirthDayStreamingDF.
  - apply well_typed_emailAndBirthDayStreamingDF'.
  - apply well_typed_emailAndBirthYearStreamingDF.
Qed.

(** ** From the message to the printed row *)


(** ** Characters that [unbase64] skips *)

Lemma sextets_skip (s1 s2 : string) (c : ascii) :
  Base64.decode_char c = None ->
  Ascii.eqb c Base64.pad = false ->
  Base64.sextets (s1 ++ String c s2) = Base64.sextets (s1 ++ s2).
Proof.
  intros Hc Hp. induction s1 as [|a s1 IH]; simpl.
  - rewrite Hp, Hc. reflexivity.
  - rewrite IH. reflexivity.
Qed.

(** X14. A character that is neither of the Base64 alphabet nor the pad, a
    line break or a blank say, has no effect wherever it stands in the
    element: the records with and without it give the same frame. *)
Theorem X14_stray_characters_in_the_element_are_skipped
        (m1 m2 : KafkaRecord) (r1 r2 : list datum) (before after : string)
        (c : ascii) (more1 more2 rest1 rest2 : list datum) :
  Base64.decode_char c = None ->
  Ascii.eqb c Base64.pad = false ->
  rows (RedisSortedSet spark [m1]) = [r1] ->
  rows (RedisSortedSet spark [m2]) = [r2] ->
  nth 7 r1 VNull
  = VArray (VStruct (VString (before ++ String c after) :: more1) :: rest1) ->
  nth 7 r2 VNull
  = VArray (VStruct (VString (before ++ after) :: more2) :: rest2) ->
  emailAndBirthYearStreamingDF spark [m1] = emailAndBirthYearStreamingDF spark [m2].
Proof.
  intros Hc Hp H1 H2 E1 E2.
  destruct (stages_of_RedisSortedSet spark _ _ H1) as (_ & _ & C1).
  destruct (stages_of_RedisSortedSet spark _ _ H2) as (_ & _ & C2).
  rewrite E1 in C1. rewrite E2 in C2. simpl in C1, C2.
  unfold Base64.decode in C1. rewrite (sextets_skip _ _ _ Hc Hp) in C1.
  fold (Base64.decode (before ++ after)) in C1.
  rewrite (frame_eq (emailAndBirthYearStreamingDF spark [m2]) _ _ eq_refl eq_refl).
  apply frame_eq; [reflexivity|].
  rewrite (CustomerRecords_single spark _ _ C1), (CustomerRecords_single spark _ _ C2).
  reflexivity.
Qed.

End Further.

(** ** The further properties at concrete records *)

Lemma X1_witness :
  StediEvents.customerRiskStreamingDF (session true true) [cache_change customer_text]
  = StediEvents.customerRiskStreamingDF (session true true)
      [keyed_record (cache_change_text (Base64.encode customer_text))]
  /\ RedisServer.emailAndBirthYearStreamingDF (session true true)
       [cache_change customer_text]
     = RedisServer.emailAndBirthYearStreamingDF (session true true)
         [keyed_record (cache_change_text (Base64.encode customer_text))].
Proof.
  apply (X1_only_the_payload_is_read (session true true)
           [cache_change customer_text]
           [keyed_record (cache_change_text (Base64.encode customer_text))]).
  reflexivity.
Defined.

Lemma X2_witness :
  rows (StediEvents.CustomerRisk (session true true) [tombstone])
  = [[VNull; VNull; VNull]]
  /\ rows (StediEvents.customerRiskStreamingDF (session true true) [tombstone])
     = [[VNull; VNull]]
  /\ rows (RedisServer.RedisSortedSet (session true true) [tombstone])
     = [[VNull; VNull; VNull; VNull; VNull; VNull; VNull; VNull]]
  /\ rows (RedisServer.CustomerRecords (session true true) [tombstone])
     = [[VNull; VNull; VNull; VNull]]
  /\ rows (RedisServer.emailAndBirthYearStreamingDF (session true true) [tombstone])
     = [].
Proof.
  apply (X2_record_without_payload (session true true) tombstone). reflexivity.
Defined.

Lemma X4_witness :
  rows (StediEvents.customerRiskStreamingDF (session true true)
          [message "stedi-events" score_number_text])
  = [[VNull; VString "8.0"]].
Proof.
  apply (X4_job_a_row_from_the_members (session true true)
           (message "stedi-events" score_number_text) score_number_text
           [("score", JNumber "8.0"); ("riskDate", JString "2020-09-14");
            ("extra", JArray [JNumber "1"; JNumber "2"])]);
    vm_compute; reflexivity.
Defined.

Lemma X5_witness :
  rows (RedisServer.CustomerRecords (session true true) [cache_change no_phone_text])
  = [[VString "Gail Spencer"; VString "Gail.Spencer@test.com"; VNull;
      VString "1963-04-12"]].
Proof.
  apply (X5_inner_record_from_the_members (session true true)
           (cache_change no_phone_text)
           (VString (Base64.encode no_phone_text)) no_phone_text
           [("customerName", JString "Gail Spencer");
            ("email", JString "Gail.Spencer@test.com");
            ("birthDay", JString "1963-04-12")]);
    vm_compute; reflexivity.
Defined.

Lemma X6_witness :
  RedisServer.emailAndBirthYearStreamingDF (session true true)
    [cache_change gail_text]
  = RedisServer.emailAndBirthYearStreamingDF (session true true)
      [cache_change other_name_text].
Proof.
  apply (X6_name_and_phone_are_not_used (session true true)
           (cache_change gail_text) (cache_change other_name_text)
           (VString "Gail Spencer") (VString "8015551212")
           (VString "G. Spencer") (VString "0")
           (VString "Gail.Spencer@test.com") (VString "1963-04-12"));
    vm_compute; reflexivity.
Defined.

Lemma X7_witness :
  RedisServer.emailAndBirthYearStreamingDF (session true true)
    [message "redis-server"
       (two_entries_text (Base64.encode customer_text) (Base64.encode gail_text))]
  = RedisServer.emailAndBirthYearStreamingDF (session true true)
      [cache_change customer_text].
Proof.
  apply (X7_only_the_first_element_is_used (session true true) _ _
           [VString "Q3VzdG9tZXI="; VNull; VNull; VNull; VNull; VNull; VNull;
            VArray [VStruct [VString (Base64.encode customer_text); VString "0.0"];
                    VStruct [VString (Base64.encode gail_text); VString "1.0"]]]
           [VString "Q3VzdG9tZXI="; VNull; VNull; VNull; VString "NONE"; VNull; VNull;
            VArray [VStruct [VString (Base64.encode customer_text); VNull]]]
           (VString (Base64.encode customer_text))
           [VString "0.0"] [VNull]
           [VStruct [VString (Base64.encode gail_text); VString "1.0"]] []);
    vm_compute; reflexivity.
Defined.

Lemma X8_witness :
  (rows (RedisServer.zSetEntriesEncodedStreamingDF (session true true)
           [message "redis-server" no_entries_text]) = [[VNull]]
   /\ rows (RedisServer.emailAndBirthYearStreamingDF (session true true)
              [message "redis-server" no_entries_text]) = [])
  /\ (rows (RedisServer.zSetEntriesEncodedStreamingDF (session true true)
              [message "redis-server" null_entries_text]) = [[VNull]]
      /\ rows (RedisServer.emailAndBirthYearStreamingDF (session true true)
                 [message "redis-server" null_entries_text]) = [])
  /\ (rows (RedisServer.zSetEntriesEncodedStreamingDF (session true true)
              [message "redis-server" entry_without_element_text]) = [[VNull]]
      /\ rows (RedisServer.emailAndBirthYearStreamingDF (session true true)
                 [message "redis-server" entry_without_element_text]) = []).
Proof.
  split; [|split].
  - apply (X8_no_element_no_row (session true true)
             (message "redis-server" no_entries_text) no_entries_text
             [("key", JString "Q3VzdG9tZXI="); ("existType", JString "NONE")]);
      [vm_compute; reflexivity|vm_compute; reflexivity|].
    left. reflexivity.
  - apply (X8_no_element_no_row (session true true)
             (message "redis-server" null_entries_text) null_entries_text
             [("key", JString "Q3VzdG9tZXI="); ("zSetEntries", JNull)]);
      [vm_compute; reflexivity|vm_compute; reflexivity|].
    right; left. reflexivity.
  - apply (X8_no_element_no_row (session true true)
             (message "redis-server" entry_without_element_text)
             entry_without_element_text
             [("key", JString "Q3VzdG9tZXI=");
              ("zSetEntries",
                JArray [JObject [("score", JString "0.0")];
                        JObject [("element", JString "dGVzdDI=");
                                 ("score", JString "1.0")]])]);
      [vm_compute; reflexivity|vm_compute; reflexivity|].
    right; right.
    exists [("score", JString "0.0")],
           [JObject [("element", JString "dGVzdDI="); ("score", JString "1.0")]].
    split; [reflexivity|split; [reflexivity|left; reflexivity]].
Defined.

Lemma X9_witness :
  exists n e p b y,
    In [n; VString e; p; VString b]
       (rows (RedisServer.CustomerRecords (session true true)
                [cache_change gail_text; cache_change no_birthday_text]))
    /\ [VString "Gail.Spencer@test.com"; VString "1963"] = [VString e; VString y]
    /\ y = before_first "-" b
    /\ occurs "-" y = false
    /\ String.prefix y b = true.
Proof.
  apply (X9_birth_year_begins_birth_day (session true true)
           [cache_change gail_text; cache_change no_birthday_text]
           [VString "Gail.Spencer@test.com"; VString "1963"]).
  vm_compute. left; reflexivity.
Defined.

Lemma X10_witness :
  rows (RedisServer.emailAndBirthYearStreamingDF (session true true)
          [cache_change dash_first_text])
  = [[VString ""; VString ""]].
Proof.
  apply (X10_empty_birth_year_is_printed (session true true)
           (cache_change dash_first_text)
           (VString "Gail Spencer") (VString "8015551212") "" "-04-12").
  - vm_compute; reflexivity.
  - right. exists "04-12". reflexivity.
Defined.


Lemma X14_witness :
  RedisServer.emailAndBirthYearStreamingDF (session true true)
    [message "redis-server" blank_in_element_text]
  = RedisServer.emailAndBirthYearStreamingDF (session true true)
      [cache_change customer_text].
Proof.
  apply (X14_stray_characters_in_the_element_are_skipped (session true true) _ _
           [VString "Q3VzdG9tZXI="; VNull; VNull; VNull; VNull; VNull; VNull;
            VArray [VStruct [VString (element_head ++ String " " element_tail);
                             VString "0.0"]]]
           [VString "Q3VzdG9tZXI="; VNull; VNull; VNull; VString "NONE"; VNull; VNull;
            VArray [VStruct [VString (element_head ++ element_tail); VNull]]]
           element_head element_tail " "%char
           [VString "0.0"] [VNull] [] []);
    vm_compute; reflexivity.
Defined.
